(** * react-native-healthkit: workout effort scores and workout routes

    A shallow embedding of
    - [src/utils/workoutEffort.ts] (module [WorkoutEffort]),
    - [ios/WorkoutProxy.swift] (modules [EffortScore], [Routes], [Plans],
      [Accessors] and [SaveRoute]), and
    - the handler of [examples/WorkoutEffortExample.tsx] (module [Example]),
    followed by the properties of the specification that concern them and
    by further properties of the code.

    Conventions.  A JavaScript [number] and a Swift [Double] are the same
    IEEE-754 values; they are embedded as [number]: a finite value is a
    rational, next to NaN and the two infinities.  Every finite double is a
    rational, so a statement proved for all [number]s holds for all doubles.
    Code that talks to the native side or to the health store is written in
    a state-and-exception monad that also records the calls it makes. *)

From Stdlib Require Import QArith ZArith String List Bool Lia.
Import ListNotations.

Set Implicit Arguments.

(* ================================================================== *)
(** ** Numbers *)

Module Num.

Inductive number : Type :=
| Finite (q : Q)
| NaN
| PosInf
| NegInf.

Definition ofZ (z : Z) : number := Finite (inject_Z z).

(** [a <= b] on doubles: false as soon as one side is NaN. *)
Definition leb (a b : number) : bool :=
  match a, b with
  | NaN, _ | _, NaN => false
  | NegInf, _ => true
  | _, PosInf => true
  | Finite x, Finite y => Qle_bool x y
  | _, _ => false
  end.

(** [a >= b] *)
Definition geb (a b : number) : bool := leb b a.

(** [Number.isInteger]: finite and without fractional part. *)
Definition isInteger (a : number) : bool :=
  match a with
  | Finite q => Pos.eqb (Qden (Qred q)) 1
  | _ => false
  end.

(** Numeric equality of two values (NaN equals nothing). *)
Definition same (a b : number) : Prop :=
  match a, b with
  | Finite x, Finite y => x == y
  | PosInf, PosInf | NegInf, NegInf => True
  | _, _ => False
  end.

Definition eqb (a b : number) : bool :=
  match a, b with
  | Finite x, Finite y => Qeq_bool x y
  | PosInf, PosInf | NegInf, NegInf => true
  | _, _ => false
  end.

End Num.

Import Num.

(* ================================================================== *)
(** ** Effects: state, exceptions and a log of the calls made *)

Inductive Outcome (Ex A : Type) : Type :=
| Returns (a : A)
| Throws (e : Ex).

Arguments Returns {Ex A} a.
Arguments Throws {Ex A} e.

Record Run (St Ev Ex A : Type) : Type := mkRun {
  outcome : Outcome Ex A;
  final : St;
  calls : list Ev
}.

Module Eff.
Section Eff.
Context {St Ev Ex : Type}.

Definition Eff (A : Type) : Type := St -> Run St Ev Ex A.

Definition ret {A} (a : A) : Eff A :=
  fun s => mkRun (Returns a) s [].

Definition throw {A} (e : Ex) : Eff A :=
  fun s => mkRun (Throws e) s [].

Definition bind {A B} (m : Eff A) (k : A -> Eff B) : Eff B :=
  fun s =>
    let r := m s in
    match outcome r with
    | Returns a =>
        let r' := k a (final r) in
        mkRun (outcome r') (final r') (calls r ++ calls r')
    | Throws e => mkRun (Throws e) (final r) (calls r)
    end.

(** [try { m } catch (e) { h e }] *)
Definition try_catch {A} (m : Eff A) (h : Ex -> Eff A) : Eff A :=
  fun s =>
    let r := m s in
    match outcome r with
    | Returns a => r
    | Throws e =>
        let r' := h e (final r) in
        mkRun (outcome r') (final r') (calls r ++ calls r')
    end.

(** One call to the outside ([await f(...)]), recorded as [ev]. *)
Definition call {A} (ev : Ev) (op : St -> Outcome Ex A * St) : Eff A :=
  fun s => let (o, s') := op s in mkRun o s' [ev].

(** [for x in xs { body x }] *)
Fixpoint forEach {A} (xs : list A) (body : A -> Eff unit) : Eff unit :=
  match xs with
  | [] => ret tt
  | x :: rest => bind (body x) (fun _ => forEach rest body)
  end.

End Eff.
End Eff.

Import Eff.

Notation "x <- m ;; k" := (bind m (fun x => k))
  (at level 61, m at next level, right associativity).
Notation "m ;;; k" := (bind m (fun _ => k))
  (at level 61, right associativity).

(* ================================================================== *)
(** ** src/utils/workoutEffort.ts *)

(** A value thrown in JavaScript: an [Error] object with its message, or
    anything else. *)
Inductive JsValue : Type :=
| JsError (message : string)
| JsOther (description : string).

(** The calls that cross into the native [WorkoutProxy]. *)
Inductive NativeCall : Type :=
| CallGetWorkoutEffortScore
| CallSetWorkoutEffortScore (score : number).

(** The interface [WorkoutProxy] of [WorkoutProxy.nitro.ts], restricted to
    the two effort-score methods; [W] is the state of the native side.  A
    method either fulfils its promise or rejects (or throws) with a value. *)
Record WorkoutProxy (W : Type) : Type := {
  proxy_getWorkoutEffortScore : W -> Outcome JsValue (option number) * W;
  proxy_setWorkoutEffortScore : number -> W -> Outcome JsValue bool * W
}.

(** The version of the running platform, e.g. 17.4. *)
Record PlatformVersion : Type := { major : nat; minor : nat }.

Definition version_lt (v : PlatformVersion) (maj mnr : nat) : Prop :=
  (major v < maj)%nat \/ (major v = maj /\ (minor v < mnr)%nat).

Module WorkoutEffort.

(** [String.prototype.includes] *)
Fixpoint includes (needle hay : string) : bool :=
  String.prefix needle hay ||
  match hay with
  | EmptyString => false
  | String _ rest => includes needle rest
  end.

Definition isValidWorkoutEffortScore (score : number) : bool :=
  isInteger score && geb score (ofZ 1) && leb score (ofZ 10).

(** [error instanceof Error && error.message.includes('unrecognized selector')] *)
Definition unrecognizedSelector (error : JsValue) : bool :=
  match error with
  | JsError message => includes "unrecognized selector" message
  | JsOther _ => false
  end.

Definition unsupportedMessage : string :=
  "Workout effort scores are only available on iOS 18.0 and later. Please check the iOS version before using this feature.".

Section Wrappers.
Context {W : Type}.
(** The rendering of a number inside a template literal. *)
Variable numberToString : number -> string.

Definition invalidMessage (score : number) : string :=
  ("Invalid workout effort score: " ++ numberToString score
     ++ ". Score must be an integer between 1 and 10.")%string.

Definition getWorkoutEffortScore (workout : WorkoutProxy W)
  : Eff (St:=W) (Ev:=NativeCall) (Ex:=JsValue) (option number) :=
  try_catch
    (call CallGetWorkoutEffortScore (proxy_getWorkoutEffortScore workout))
    (fun error =>
       if unrecognizedSelector error then ret None else throw error).

Definition setWorkoutEffortScore (workout : WorkoutProxy W) (score : number)
  : Eff (St:=W) (Ev:=NativeCall) (Ex:=JsValue) bool :=
  if negb (isValidWorkoutEffortScore score) then
    throw (JsError (invalidMessage score))
  else
    try_catch
      (call (CallSetWorkoutEffortScore score)
            (proxy_setWorkoutEffortScore workout score))
      (fun error =>
         if unrecognizedSelector error then
           throw (JsError unsupportedMessage)
         else throw error).
End Wrappers.

(** The function takes no argument and reads nothing; the platform version
    it is documented to depend on is made an explicit argument here. *)
Definition isWorkoutEffortSupported (platform : PlatformVersion) : bool :=
  true.

(** The object literal [descriptions]: its keys are the integers 1 to 10. *)
Definition descriptions : list (Z * string) :=
  [ (1, "Very Easy"); (2, "Easy"); (3, "Light"); (4, "Moderate");
    (5, "Somewhat Hard"); (6, "Hard"); (7, "Very Hard");
    (8, "Extremely Hard"); (9, "Maximum Effort"); (10, "All-Out") ]%Z%string.

(** The integer key that a number designates in [object[number]]: a number
    is turned into its decimal rendering, which is that of an integer exactly
    when the number is one. *)
Definition integerKey (score : number) : option Z :=
  match score with
  | Finite q => if isInteger score then Some (Qnum (Qred q)) else None
  | _ => None
  end.

Fixpoint property (object : list (Z * string)) (key : Z) : option string :=
  match object with
  | [] => None
  | (k, v) :: rest => if Z.eqb k key then Some v else property rest key
  end.

(** [descriptions[score]]; [None] is [undefined].  The type of the argument
    is erased at run time, so every number is a possible argument. *)
Definition getWorkoutEffortDescription (score : number) : option string :=
  match integerKey score with
  | Some key => property descriptions key
  | None => None
  end.

End WorkoutEffort.

(* ================================================================== *)
(** ** HealthKit and CoreLocation data, as WorkoutProxy.swift uses them *)

Definition Double : Type := number.
Definition Date : Type := Z.

Inductive SwiftError : Type :=
| RuntimeError (withMessage : string)
| HKError (description : string).

Record HKWorkout : Type := {
  workout_uuid : string;
  workout_startDate : Date;
  workout_endDate : Date
}.

Inductive HKQuantityTypeIdentifier : Type :=
| workoutEffortScore
| otherQuantityType (name : string).

(** An [HKQuantitySample]; [quantity] is the value in the unit
    [appleEffortScore], which is the only unit the code reads or writes. *)
Record HKQuantitySample : Type := {
  sampleType : HKQuantityTypeIdentifier;
  quantity : Double;
  sample_start : Date;
  sample_end : Date
}.

Inductive MetadataValue : Type :=
| MetaString (s : string)
| MetaNumber (d : Double).

Definition Metadata : Type := list (string * MetadataValue).

Record HKWorkoutRoute : Type := {
  route_uuid : string;
  route_metadata : option Metadata
}.

Inductive HKSample : Type :=
| QuantitySample (s : HKQuantitySample)
| WorkoutRouteSample (r : HKWorkoutRoute)
| OtherSample (uuid : string).

Record CLLocation : Type := {
  altitude : Double;
  course : Double;
  timestamp : Date;
  horizontalAccuracy : Double;
  latitude : Double;
  longitude : Double;
  speed : Double;
  speedAccuracy : Double;
  verticalAccuracy : Double
}.

(** [Array.last] *)
Fixpoint lastOf {A} (xs : list A) : option A :=
  match xs with
  | [] => None
  | [x] => Some x
  | _ :: rest => lastOf rest
  end.

(* ================================================================== *)
(** ** The health store, for effort scores *)

Inductive StoreCall : Type :=
| QueryEffortSamples (workout : HKWorkout)
| DeleteSample (sample : HKSample)
| RelateEffortSample (effort : HKQuantitySample) (workout : HKWorkout).

(** What the code asks of [HKHealthStore]; [S] is the state of the store.
    - [effortSamplesRelated w] is [descriptor.result(for: store)] for the
      descriptor built from [predicateForWorkoutEffortSamplesRelated] with
      no sort descriptor;
    - [delete] is [store.delete];
    - [relateWorkoutEffortSample] is [store.relateWorkoutEffortSample]. *)
Record HealthStore (S : Type) : Type := {
  effortSamplesRelated :
    HKWorkout -> S -> Outcome SwiftError (list HKSample) * S;
  delete : HKSample -> S -> Outcome SwiftError unit * S;
  relateWorkoutEffortSample :
    HKQuantitySample -> HKWorkout -> S -> Outcome SwiftError unit * S
}.

(** The ordering the design relies on: once a sample has been related to a
    workout, the next query for that workout lists it last. *)
Definition newest_last {S} (store : HealthStore S) : Prop :=
  forall effort workout s s',
    relateWorkoutEffortSample store effort workout s = (Returns tt, s') ->
    exists earlier s'',
      effortSamplesRelated store workout s'
      = (Returns (earlier ++ [QuantitySample effort]), s'').

(* ================================================================== *)
(** ** ios/WorkoutProxy.swift: effort scores *)

Module EffortScore.
Section Internal.
Context {S : Type}.
Variable store : HealthStore S.
(** String interpolation of a [Double]. *)
Variable describe : Double -> string.

Definition outOfRangeMessage (score : Double) : string :=
  ("[react-native-healthkit] Workout effort score must be between 1 and 10, got: "
     ++ describe score)%string.

Definition getWorkoutEffortScoreInternal (workout : HKWorkout)
  : Eff (St:=S) (Ev:=StoreCall) (Ex:=SwiftError) (option Double) :=
  samples <- call (QueryEffortSamples workout)
                  (effortSamplesRelated store workout) ;;
  match lastOf samples with
  | Some (QuantitySample lastSample) => ret (Some (quantity lastSample))
  | _ => ret None
  end.

Definition setWorkoutEffortScoreInternal (workout : HKWorkout) (score : Double)
  : Eff (St:=S) (Ev:=StoreCall) (Ex:=SwiftError) bool :=
  if negb (geb score (ofZ 1) && leb score (ofZ 10)) then
    throw (RuntimeError (outOfRangeMessage score))
  else
    existing <- call (QueryEffortSamples workout)
                     (effortSamplesRelated store workout) ;;
    forEach existing
      (fun sample =>
         (* try? await store.delete(sample) *)
         try_catch (call (DeleteSample sample) (delete store sample))
                   (fun _ => ret tt)) ;;;
    let effort :=
      {| sampleType := workoutEffortScore;
         quantity := score;
         sample_start := workout_startDate workout;
         sample_end := workout_endDate workout |} in
    call (RelateEffortSample effort workout)
         (relateWorkoutEffortSample store effort workout) ;;;
    ret true.

(** The methods [getWorkoutEffortScore] and [setWorkoutEffortScore] of
    [class WorkoutProxy], seen from JavaScript: [Promise.async] runs the
    internal function on [self.workout]; [bridge] is the conversion of a
    Swift error into the value the promise rejects with.  The native state
    is the store together with the store calls made so far. *)
Variable bridge : SwiftError -> JsValue.

Definition promiseAsync {A} (body : Eff (St:=S) (Ev:=StoreCall) (Ex:=SwiftError) A)
  : S * list StoreCall -> Outcome JsValue A * (S * list StoreCall) :=
  fun '(s, log) =>
    let r := body s in
    (match outcome r with
     | Returns a => Returns a
     | Throws e => Throws (bridge e)
     end, (final r, log ++ calls r)).

Definition hybridWorkoutProxy (workout : HKWorkout)
  : WorkoutProxy (S * list StoreCall) :=
  {| proxy_getWorkoutEffortScore :=
       promiseAsync (getWorkoutEffortScoreInternal workout);
     proxy_setWorkoutEffortScore := fun score =>
       promiseAsync (setWorkoutEffortScoreInternal workout score) |}.

End Internal.
End EffortScore.

(* ================================================================== *)
(** ** An in-memory store, used to run the code on concrete inputs *)

Module MemoryStore.

Record t : Type := {
  stored : list (string * HKSample);   (* workout uuid, sample; oldest first *)
  deletionsDenied : bool;
  writesDenied : bool
}.

Definition quantityType_eqb (a b : HKQuantityTypeIdentifier) : bool :=
  match a, b with
  | workoutEffortScore, workoutEffortScore => true
  | otherQuantityType x, otherQuantityType y => String.eqb x y
  | _, _ => false
  end.

Definition sample_eqb (a b : HKSample) : bool :=
  match a, b with
  | QuantitySample x, QuantitySample y =>
      quantityType_eqb (sampleType x) (sampleType y)
      && Num.eqb (quantity x) (quantity y)
      && Z.eqb (sample_start x) (sample_start y)
      && Z.eqb (sample_end x) (sample_end y)
  | WorkoutRouteSample x, WorkoutRouteSample y =>
      String.eqb (route_uuid x) (route_uuid y)
  | OtherSample x, OtherSample y => String.eqb x y
  | _, _ => false
  end.

Definition relatedTo (workout : HKWorkout) (st : t) : list HKSample :=
  map snd
    (filter (fun e => String.eqb (fst e) (workout_uuid workout)) (stored st)).

Definition healthStore : HealthStore t :=
  {| effortSamplesRelated := fun workout st =>
       (Returns (relatedTo workout st), st);
     delete := fun sample st =>
       if deletionsDenied st then
         (Throws (HKError "Authorization is not determined"), st)
       else
         (Returns tt,
          {| stored := filter (fun e => negb (sample_eqb (snd e) sample))
                              (stored st);
             deletionsDenied := deletionsDenied st;
             writesDenied := writesDenied st |});
     relateWorkoutEffortSample := fun effort workout st =>
       if writesDenied st then
         (Throws (HKError "Not authorized"), st)
       else
         (Returns tt,
          {| stored := stored st
                       ++ [(workout_uuid workout, QuantitySample effort)];
             deletionsDenied := deletionsDenied st;
             writesDenied := writesDenied st |}) |}.

(** The same store, except that a query lists the newest sample first. *)
Definition newestFirst : HealthStore t :=
  {| effortSamplesRelated := fun workout st =>
       (Returns (rev (relatedTo workout st)), st);
     delete := delete healthStore;
     relateWorkoutEffortSample := relateWorkoutEffortSample healthStore |}.

End MemoryStore.

(* ================================================================== *)
(** ** ios/WorkoutProxy.swift: workout routes *)

(** How a Swift call ends: it returns, it throws, the process traps, or it
    stays suspended for ever. *)
Inductive TrapReason : Type :=
| ForcedTryFailed (e : SwiftError)       (* try! met an error *)
| ContinuationMisuse                     (* a checked continuation resumed twice *)
| IndexOutOfRange.

Inductive Completion (A : Type) : Type :=
| Done (a : A)
| Error (e : SwiftError)
| Trap (reason : TrapReason)
| Suspended.

Arguments Done {A} a.
Arguments Error {A} e.
Arguments Trap {A} reason.
Arguments Suspended {A}.

Definition andThen {A B} (m : Completion A) (k : A -> Completion B)
  : Completion B :=
  match m with
  | Done a => k a
  | Error e => Error e
  | Trap r => Trap r
  | Suspended => Suspended
  end.

Notation "x <~ m ;; k" := (andThen m (fun x => k))
  (at level 61, m at next level, right associativity).

(** [try! m] *)
Definition forceTry {A} (m : Completion A) : Completion A :=
  match m with
  | Error e => Trap (ForcedTryFailed e)
  | other => other
  end.

(** A [CheckedContinuation]: it is resumed at most once; a second resume is
    a misuse, on which the runtime traps. *)
Inductive Continuation (A : Type) : Type :=
| Pending
| Resumed (r : Outcome SwiftError A)
| Misused (first : Outcome SwiftError A).

Arguments Pending {A}.
Arguments Resumed {A} r.
Arguments Misused {A} first.

Definition resume {A} (k : Continuation A) (r : Outcome SwiftError A)
  : Continuation A :=
  match k with
  | Pending => Resumed r
  | Resumed first | Misused first => Misused first
  end.

(** What [await withCheckedThrowingContinuation] yields once the store has
    made all its callbacks. *)
Definition awaitContinuation {A} (k : Continuation A) : Completion A :=
  match k with
  | Pending => Suspended
  | Resumed (Returns a) => Done a
  | Resumed (Throws e) => Error e
  | Misused _ => Trap ContinuationMisuse
  end.

(** The arguments of one invocation of the results handler of an
    [HKAnchoredObjectQuery] (those the code reads). *)
Record AnchoredCallback : Type := {
  cb_samples : option (list HKSample);
  cb_error : option SwiftError
}.

(** The arguments of one invocation of the data handler of an
    [HKWorkoutRouteQuery]. *)
Record RouteCallback : Type := {
  locationsOrNil : option (list CLLocation);
  done : bool;
  errorOrNil : option SwiftError
}.

(** What [store.execute(query)] makes of the two queries: the handler
    invocations, in order. *)
Record RouteStore : Type := {
  executeAnchored : HKWorkout -> list AnchoredCallback;
  executeRouteQuery : HKWorkoutRoute -> list RouteCallback
}.

Record WorkoutRouteLocation : Type := {
  wl_altitude : Double;
  wl_course : Double;
  wl_date : Date;
  wl_distance : option Double;
  wl_horizontalAccuracy : Double;
  wl_latitude : Double;
  wl_longitude : Double;
  wl_speed : Double;
  wl_speedAccuracy : Double;
  wl_verticalAccuracy : Double
}.

Record WorkoutRoute : Type := {
  locations : list WorkoutRouteLocation;
  HKMetadataKeySyncIdentifier : option string;
  HKMetadataKeySyncVersion : option Double
}.

Module Routes.

(** [samples as? [HKWorkoutRoute]]: the cast of the whole array, which
    succeeds when every element is a route. *)
Fixpoint asWorkoutRoutes (samples : list HKSample)
  : option (list HKWorkoutRoute) :=
  match samples with
  | [] => Some []
  | WorkoutRouteSample r :: rest =>
      match asWorkoutRoutes rest with
      | Some routes => Some (r :: routes)
      | None => None
      end
  | _ :: _ => None
  end.

(** [array[i]] *)
Definition subscript {A} (xs : list A) (i : nat) : Completion A :=
  match nth_error xs i with
  | Some x => Done x
  | None => Trap IndexOutOfRange
  end.

(** [xs.enumerated().map(f)] *)
Fixpoint enumeratedMapFrom {A B} (i : nat) (xs : list A)
         (f : nat -> A -> Completion B) : Completion (list B) :=
  match xs with
  | [] => Done []
  | x :: rest =>
      y <~ f i x ;;
      ys <~ enumeratedMapFrom (S i) rest f ;;
      Done (y :: ys)
  end.

Definition enumeratedMap {A B} (xs : list A) (f : nat -> A -> Completion B)
  : Completion (list B) :=
  enumeratedMapFrom 0 xs f.

Section Routes.
Variable store : RouteStore.
(** [CLLocation.distance(from:)]: [distance_from a b] is
    [a.distance(from: b)]. *)
Variable distance_from : CLLocation -> CLLocation -> Double.
(** The serialization helpers of the package and of NitroModules. *)
Variable AnyMap : Type.
Variable serializeMetadata : option Metadata -> AnyMap.
Variable getString : AnyMap -> string -> Completion (option string).
Variable getDouble : AnyMap -> string -> Completion (option Double).

(** The results handler of [getWorkoutRoutesInternal]. *)
Definition routesHandler (continuation : Continuation (list HKSample))
           (cb : AnchoredCallback) : Continuation (list HKSample) :=
  match cb_error cb with
  | Some hasError => resume continuation (Throws hasError)
  | None =>
      match cb_samples cb with
      | None =>
          resume continuation (Throws (RuntimeError "Empty response"))
      | Some samples => resume continuation (Returns samples)
      end
  end.

Definition getWorkoutRoutesInternal (workout : HKWorkout)
  : Completion (option (list HKWorkoutRoute)) :=
  samples <~ awaitContinuation
               (fold_left routesHandler (executeAnchored store workout)
                          Pending) ;;
  match asWorkoutRoutes samples with
  | Some routes => Done (Some routes)
  | None => Done None
  end.

(** The data handler of [getRouteLocations]; its state is the captured
    variable [allLocations] and the continuation. *)
Definition locationsHandler
           (st : list CLLocation * Continuation (list CLLocation))
           (cb : RouteCallback)
  : list CLLocation * Continuation (list CLLocation) :=
  let (allLocations, continuation) := st in
  match errorOrNil cb with
  | Some error => (allLocations, resume continuation (Throws error))
  | None =>
      match locationsOrNil cb with
      | None =>
          (allLocations,
           resume continuation (Throws (RuntimeError "Empty response")))
      | Some currentLocationBatch =>
          let allLocations := allLocations ++ currentLocationBatch in
          if done cb then
            (allLocations, resume continuation (Returns allLocations))
          else (allLocations, continuation)
      end
  end.

(** The continuation of [getRouteLocations] before [try!] is applied. *)
Definition routeLocationsContinuation (callbacks : list RouteCallback)
  : Continuation (list CLLocation) :=
  snd (fold_left locationsHandler callbacks ([], Pending)).

Definition getRouteLocations (route : HKWorkoutRoute)
  : Completion (list CLLocation) :=
  forceTry
    (awaitContinuation
       (routeLocationsContinuation (executeRouteQuery store route))).

Definition serializeLocation (location : CLLocation)
           (previousLocation : option CLLocation) : WorkoutRouteLocation :=
  let distance :=
    match previousLocation with
    | Some previousLocation => Some (distance_from location previousLocation)
    | None => None
    end in
  {| wl_altitude := altitude location;
     wl_course := course location;
     wl_date := timestamp location;
     wl_distance := distance;
     wl_horizontalAccuracy := horizontalAccuracy location;
     wl_latitude := latitude location;
     wl_longitude := longitude location;
     wl_speed := speed location;
     wl_speedAccuracy := speedAccuracy location;
     wl_verticalAccuracy := verticalAccuracy location |}.

(** [routeCLLocations.enumerated().map { (i, loc) in ... }] *)
Definition serializeLocations (routeCLLocations : list CLLocation)
  : Completion (list WorkoutRouteLocation) :=
  enumeratedMap routeCLLocations
    (fun i loc =>
       previousLocation <~
         (if Nat.eqb i 0 then Done None
          else (p <~ subscript routeCLLocations (i - 1) ;; Done (Some p))) ;;
       Done (serializeLocation loc previousLocation)).

(** The body of [for route in _routes], with [allRoutes] threaded. *)
Fixpoint serializeRoutes (routes : list HKWorkoutRoute)
         (allRoutes : list WorkoutRoute) : Completion (list WorkoutRoute) :=
  match routes with
  | [] => Done allRoutes
  | route :: rest =>
      let routeMetadata := serializeMetadata (route_metadata route) in
      routeCLLocations <~ getRouteLocations route ;;
      routeLocations <~ serializeLocations routeCLLocations ;;
      syncIdentifier <~ getString routeMetadata "HKMetadataKeySyncIdentifier" ;;
      syncVersion <~ getDouble routeMetadata "HKMetadataKeySyncVersion" ;;
      serializeRoutes rest
        (allRoutes ++ [ {| locations := routeLocations;
                           HKMetadataKeySyncIdentifier := syncIdentifier;
                           HKMetadataKeySyncVersion := syncVersion |} ])
  end.

Definition getSerializedWorkoutLocations (workout : HKWorkout)
  : Completion (list WorkoutRoute) :=
  routes <~ getWorkoutRoutesInternal workout ;;
  match routes with
  | None => Error (RuntimeError "Unexpected empty response")
  | Some _routes => serializeRoutes _routes []
  end.

End Routes.
End Routes.

(* ================================================================== *)
(** ** ios/WorkoutProxy.swift: workout plans and the activity type *)

(** The two run-time failures of the accessors below: a forced unwrap of
    [nil], and [Int32(_)] of a value that does not fit. *)
Inductive Fatal : Type :=
| UnwrappedNil
| Int32Overflow.

(** [Int32(z)] *)
Definition toInt32 (z : Z) : Fatal + Z :=
  if ((-2147483648 <=? z) && (z <=? 2147483647))%Z then inr z
  else inl Int32Overflow.

(** The availability check [if #available] for iOS [maj.mnr]. *)
Definition available (platform : PlatformVersion) (maj mnr : nat) : bool :=
  Nat.ltb maj (major platform)
  || (Nat.eqb (major platform) maj && Nat.leb mnr (minor platform)).

(** A workout plan of WorkoutKit: its identifier and the raw value of
    [workout.activity]. *)
Record HKWorkoutPlan : Type := {
  plan_uuidString : string;
  plan_activityRawValue : Z
}.

Module Plans.
Section Plans.
(** The generated enumeration [WorkoutActivityType], with its failable
    initializer from a raw value and its case [other]. *)
Variable WorkoutActivityType : Type.
Variable activityOfRawValue : Z -> option WorkoutActivityType.
Variable other : WorkoutActivityType.
(** [workout.workoutPlan], an asynchronous throwing property, and
    [workout.workoutActivityType.rawValue]. *)
Variable workoutPlanOf : HKWorkout -> Outcome SwiftError (option HKWorkoutPlan).
Variable activityRawValueOf : HKWorkout -> Z.

Record WorkoutPlan : Type := {
  id : string;
  activityType : WorkoutActivityType
}.

Definition getWorkoutPlanInternal (workout : HKWorkout)
  : Fatal + Outcome SwiftError (option WorkoutPlan) :=
  match workoutPlanOf workout with
  | Throws e => inr (Throws e)
  | Returns None => inr (Returns None)
  | Returns (Some workoutPlan) =>
      match toInt32 (plan_activityRawValue workoutPlan) with
      | inl fatal => inl fatal
      | inr rawValue =>
          match activityOfRawValue rawValue with
          | Some activity =>
              inr (Returns (Some {| id := plan_uuidString workoutPlan;
                                    activityType := activity |}))
          | None => inl UnwrappedNil
          end
      end
  end.

(** The method [getWorkoutPlan] of [class WorkoutProxy]. *)
Definition getWorkoutPlan (platform : PlatformVersion) (workout : HKWorkout)
  : Fatal + Outcome SwiftError (option WorkoutPlan) :=
  if available platform 17 0 then getWorkoutPlanInternal workout
  else inr (Throws (RuntimeError
                      "Workout plans are only available on iOS 17.0 or later")).

(** The property [workoutActivityType] of [class WorkoutProxy]. *)
Definition workoutActivityType (workout : HKWorkout)
  : Fatal + WorkoutActivityType :=
  match toInt32 (activityRawValueOf workout) with
  | inl fatal => inl fatal
  | inr rawValue =>
      match activityOfRawValue rawValue with
      | Some activity => inr activity
      | None => inr other
      end
  end.

End Plans.
End Plans.

(* ================================================================== *)
(** ** ios/WorkoutProxy.swift: events *)

Record HKWorkoutEvent : Type := {
  event_typeRawValue : Z;
  event_start : Date;
  event_end : Date
}.

Module Accessors.
Section Accessors.
(** The generated enumeration [WorkoutEventType]. *)
Variable WorkoutEventType : Type.
Variable eventTypeOfRawValue : Z -> option WorkoutEventType.
(** [workout.workoutEvents]. *)
Variable workoutEventsOf : HKWorkout -> option (list HKWorkoutEvent).

Record WorkoutEvent : Type := {
  we_type : WorkoutEventType;
  we_startDate : Date;
  we_endDate : Date
}.

(** The closure given to [compactMap]. *)
Definition serializeEvent (event : HKWorkoutEvent)
  : Fatal + option WorkoutEvent :=
  match toInt32 (event_typeRawValue event) with
  | inl fatal => inl fatal
  | inr rawValue =>
      match eventTypeOfRawValue rawValue with
      | Some type =>
          inr (Some {| we_type := type;
                       we_startDate := event_start event;
                       we_endDate := event_end event |})
      | None => inr None
      end
  end.

(** [xs.compactMap(f)], for a closure that may fail fatally. *)
Fixpoint compactMap {A B} (f : A -> Fatal + option B) (xs : list A)
  : Fatal + list B :=
  match xs with
  | [] => inr []
  | x :: rest =>
      match f x with
      | inl fatal => inl fatal
      | inr y =>
          match compactMap f rest with
          | inl fatal => inl fatal
          | inr ys =>
              inr (match y with Some b => b :: ys | None => ys end)
          end
      end
  end.

(** The property [events]. *)
Definition events (workout : HKWorkout) : Fatal + option (list WorkoutEvent) :=
  match workoutEventsOf workout with
  | Some hkWorkoutEvents =>
      match compactMap serializeEvent hkWorkoutEvents with
      | inl fatal => inl fatal
      | inr serialized => inr (Some serialized)
      end
  | None => inr None
  end.

End Accessors.
End Accessors.

(* ================================================================== *)
(** ** ios/WorkoutProxy.swift: saving a route *)

Inductive BuilderCall : Type :=
| InsertRouteData (locations : list CLLocation)
| FinishRoute (workout : HKWorkout).

(** What the code asks of the [HKWorkoutRouteBuilder] it creates; [B] is the
    state of the builder and of the store behind it. *)
Record RouteBuilder (B : Type) : Type := {
  insertRouteData : list CLLocation -> B -> Outcome SwiftError unit * B;
  finishRoute : HKWorkout -> B -> Outcome SwiftError unit * B
}.

Module SaveRoute.
Section SaveRoute.
Context {B : Type}.
Variable routeBuilder : RouteBuilder B.
(** [LocationForSaving] and [mapLocations(from:)] of the package. *)
Variable LocationForSaving : Type.
Variable mapLocations : list LocationForSaving -> list CLLocation.

(** The body of the [do] block of [saveWorkoutRouteInternal]. *)
Definition saveTask (workout : HKWorkout) (locations : list LocationForSaving)
  : Eff (St:=B) (Ev:=BuilderCall) (Ex:=SwiftError) bool :=
  let clLocations := mapLocations locations in
  call (InsertRouteData clLocations)
       (insertRouteData routeBuilder clLocations) ;;;
  call (FinishRoute workout) (finishRoute routeBuilder workout) ;;;
  ret true.

(** [saveWorkoutRouteInternal]: the task resumes the continuation with the
    value returned, or in its [catch] with the error thrown. *)
Definition saveWorkoutRouteInternal (workout : HKWorkout)
           (locations : list LocationForSaving) (b : B)
  : Completion bool * B * list BuilderCall :=
  let r := saveTask workout locations b in
  (awaitContinuation (resume Pending (outcome r)), final r, calls r).

End SaveRoute.
End SaveRoute.

(* ================================================================== *)
(** ** examples/WorkoutEffortExample.tsx *)

Inductive UiEvent : Type :=
| AlertShown (title message : string)
| ConsoleError (label : string) (error : JsValue).

Module Example.

(** The state of the component that [setWorkoutEffort] reads and writes. *)
Record Component (W : Type) : Type := {
  workout : option (WorkoutProxy W);
  effortScore : option number;
  loading : bool
}.

(** [const scores] of [renderEffortButtons]: one button for each. *)
Definition scores : list number :=
  map ofZ [1; 2; 3; 4; 5; 6; 7; 8; 9; 10]%Z.

(** [error instanceof Error && error.message.includes('iOS 18.0 and later')] *)
Definition isVersionError (error : JsValue) : bool :=
  match error with
  | JsError message => WorkoutEffort.includes "iOS 18.0 and later" message
  | JsOther _ => false
  end.

Section Handlers.
Context {W : Type}.
Variable numberToString : number -> string.

(** A template literal renders [undefined] as the word. *)
Definition successMessage (score : number) : string :=
  ("Workout effort set to " ++ numberToString score ++ " ("
     ++ match WorkoutEffort.getWorkoutEffortDescription score with
        | Some description => description
        | None => "undefined"
        end ++ ")")%string.

Record Handled : Type := {
  component : Component W;
  native : W;
  shown : list UiEvent;
  nativeCalls : list NativeCall
}.

Definition setWorkoutEffort (score : number) (c : Component W) (w : W)
  : Handled :=
  match workout c with
  | None =>
      {| component := c; native := w;
         shown := [AlertShown "Error" "No workout selected"];
         nativeCalls := [] |}
  | Some selected =>
      if negb (WorkoutEffort.isValidWorkoutEffortScore score) then
        {| component := c; native := w;
           shown := [AlertShown "Invalid Score"
                                "Effort score must be between 1 and 10"];
           nativeCalls := [] |}
      else
        let r := WorkoutEffort.setWorkoutEffortScore
                   numberToString selected score w in
        match outcome r with
        | Returns _ =>
            {| component := {| workout := workout c;
                               effortScore := Some score;
                               loading := false |};
               native := final r;
               shown := [AlertShown "Success" (successMessage score)];
               nativeCalls := calls r |}
        | Throws error =>
            {| component := {| workout := workout c;
                               effortScore := effortScore c;
                               loading := false |};
               native := final r;
               shown :=
                 [ConsoleError "Failed to set effort score:" error;
                  if isVersionError error then
                    AlertShown "iOS Version"
                               "Workout effort scores require iOS 18 or later"
                  else
                    AlertShown "Error" "Failed to set workout effort score"];
               nativeCalls := calls r |}
        end
  end.

End Handlers.
End Example.

(* ================================================================== *)
(** * Vocabulary of the properties *)

(** The score is an integer between 1 and 10. *)
Definition integerFrom1To10 (s : number) : Prop :=
  exists z : Z, same s (ofZ z) /\ (1 <= z <= 10)%Z.


(** The sample that [setWorkoutEffortScoreInternal] builds. *)
Definition effortSample (workout : HKWorkout) (score : Double) : HKQuantitySample :=
  {| sampleType := workoutEffortScore;
     quantity := score;
     sample_start := workout_startDate workout;
     sample_end := workout_endDate workout |}.

(** A callback that delivers a batch, and one that reports an error. *)
Definition delivery (batch : list CLLocation) (isLast : bool) : RouteCallback :=
  {| locationsOrNil := Some batch; done := isLast; errorOrNil := None |}.

Definition failure (batch : option (list CLLocation)) (isLast : bool)
           (error : SwiftError) : RouteCallback :=
  {| locationsOrNil := batch; done := isLast; errorOrNil := Some error |}.

(** Batches delivered one by one, none of them flagged [done]. *)
Definition undone (batches : list (list CLLocation)) : list RouteCallback :=
  map (fun batch => delivery batch false) batches.

(** The single callback of an anchored query that reports no error. *)
Definition answers (samples : option (list HKSample)) : list AnchoredCallback :=
  [ {| cb_samples := samples; cb_error := None |} ].

Definition isWorkoutRoute (sample : HKSample) : bool :=
  match sample with
  | WorkoutRouteSample _ => true
  | _ => false
  end.

(** The samples of the route kind among [samples], in order: the filter
    that the specification describes. *)
Fixpoint routesAmong (samples : list HKSample) : list HKWorkoutRoute :=
  match samples with
  | [] => []
  | WorkoutRouteSample r :: rest => r :: routesAmong rest
  | _ :: rest => routesAmong rest
  end.

Section RouteVocabulary.
Variable distance_from : CLLocation -> CLLocation -> Double.
Variable store : RouteStore.

(** The distance from [a] to [b], by the platform's primitive:
    [b.distance(from: a)]. *)
Definition distanceBetween (a b : CLLocation) : Double := distance_from b a.

(** Each location serialized with the one before it. *)
Fixpoint withPrevious (previous : option CLLocation) (locs : list CLLocation)
  : list WorkoutRouteLocation :=
  match locs with
  | [] => []
  | loc :: rest =>
      Routes.serializeLocation distance_from loc previous
      :: withPrevious (Some loc) rest
  end.

(** [out] is [locs] in the same order, the first entry without distance
    and every later one with the distance from its predecessor. *)
Definition distancesFollow (locs : list CLLocation)
           (out : list WorkoutRouteLocation) : Prop :=
  length out = length locs
  /\ forall i loc,
      nth_error locs i = Some loc ->
      exists serializedLoc,
        nth_error out i = Some serializedLoc
        /\ wl_date serializedLoc = timestamp loc
        /\ wl_latitude serializedLoc = latitude loc
        /\ wl_longitude serializedLoc = longitude loc
        /\ match i with
           | O => wl_distance serializedLoc = None
           | S j => exists previous,
               nth_error locs j = Some previous
               /\ wl_distance serializedLoc
                  = Some (distanceBetween previous loc)
           end.

(** The route record is built from the locations the store delivered for
    that route. *)
Definition reconstructs (route : HKWorkoutRoute) (r : WorkoutRoute) : Prop :=
  exists locs,
    Routes.getRouteLocations store route = Done locs
    /\ distancesFollow locs (locations r).
End RouteVocabulary.

(* ================================================================== *)
(** * Concrete inputs *)

Definition morningRun : HKWorkout :=
  {| workout_uuid := "8F2C1D7A-55E0-4C0B-9A35-2D1B6E0C4F11";
     workout_startDate := 1700000000%Z;
     workout_endDate := 1700003600%Z |}.

(** A proxy on a platform without the effort-score methods. *)
Definition selectorMissing : JsValue :=
  JsError "-[HybridWorkoutProxy getWorkoutEffortScore]: unrecognized selector sent to instance".

Definition proxyWithoutEffort : WorkoutProxy unit :=
  {| proxy_getWorkoutEffortScore := fun w => (Throws selectorMissing, w);
     proxy_setWorkoutEffortScore := fun _ w => (Throws selectorMissing, w) |}.



(** A store in which nothing can be deleted. *)
Definition undeletable : MemoryStore.t :=
  {| MemoryStore.stored := [];
     MemoryStore.deletionsDenied := true;
     MemoryStore.writesDenied := false |}.

Definition errorToJs (e : SwiftError) : JsValue :=
  match e with
  | RuntimeError m => JsError m
  | HKError d => JsError d
  end.

Definition morningRunProxy (store : HealthStore MemoryStore.t)
  : WorkoutProxy (MemoryStore.t * list StoreCall) :=
  EffortScore.hybridWorkoutProxy store (fun _ => "?"%string) errorToJs morningRun.

(** Score 3, then score 9, on the store that refuses every deletion. *)
Definition afterThree (store : HealthStore MemoryStore.t)
  : MemoryStore.t * list StoreCall :=
  final (WorkoutEffort.setWorkoutEffortScore
           (fun _ => "?"%string) (morningRunProxy store) (ofZ 3)
           (undeletable, [])).

Definition afterNine (store : HealthStore MemoryStore.t)
  : MemoryStore.t * list StoreCall :=
  final (WorkoutEffort.setWorkoutEffortScore
           (fun _ => "?"%string) (morningRunProxy store) (ofZ 9)
           (afterThree store)).

Definition sevenAndAHalf : Double := Finite (15 # 2).

Definition gpsFix (t : Z) (lat lon : Q) : CLLocation :=
  {| altitude := Finite 12; course := Finite 90; timestamp := t;
     horizontalAccuracy := Finite 5; latitude := Finite lat;
     longitude := Finite lon; speed := Finite 3; speedAccuracy := Finite 1;
     verticalAccuracy := Finite 4 |}.

Definition batchA : list CLLocation :=
  [gpsFix 1 (591#10) (180#10); gpsFix 2 (592#10) (181#10);
   gpsFix 3 (593#10) (182#10)].
Definition batchB : list CLLocation :=
  [gpsFix 4 (594#10) (183#10); gpsFix 5 (595#10) (184#10)].
Definition batchC : list CLLocation := [].
Definition batchD : list CLLocation :=
  [gpsFix 6 (596#10) (185#10); gpsFix 7 (597#10) (186#10);
   gpsFix 8 (598#10) (187#10); gpsFix 9 (599#10) (188#10)].

Definition loop1 : HKWorkoutRoute :=
  {| route_uuid := "route-1";
     route_metadata :=
       Some [("HKMetadataKeySyncIdentifier"%string, MetaString "sync-1");
             ("HKMetadataKeySyncVersion"%string, MetaNumber (Finite 2))] |}.

(** A store that delivers the route of [morningRun] in batches of 3, 2, 0
    and 4 locations, [done] on the last. *)
Definition fourBatches : RouteStore :=
  {| executeAnchored := fun _ => answers (Some [WorkoutRouteSample loop1]);
     executeRouteQuery := fun _ =>
       undone [batchA; batchB; batchC] ++ [delivery batchD true] |}.

(** A store whose route query fails after the first batch. *)
Definition permissionLost : SwiftError :=
  HKError "Protected health data is inaccessible".

Definition failsAfterFirstBatch : RouteStore :=
  {| executeAnchored := fun _ => answers (Some [WorkoutRouteSample loop1]);
     executeRouteQuery := fun _ =>
       [delivery batchA false; failure None false permissionLost] |}.

(** A store that answers the anchored query with one sample that is not a
    route; one whose callback carries nothing; one without routes. *)
Definition strayHeartRate : list HKSample := [OtherSample "heart-rate-1"].

Definition answersStray : RouteStore :=
  {| executeAnchored := fun _ => answers (Some strayHeartRate);
     executeRouteQuery := fun _ => [] |}.

Definition silentStore : RouteStore :=
  {| executeAnchored := fun _ => answers None;
     executeRouteQuery := fun _ => [] |}.

Definition noRoutes : RouteStore :=
  {| executeAnchored := fun _ => answers (Some []);
     executeRouteQuery := fun _ => [] |}.

(** Stand-ins for the platform's distance and for the metadata helpers, to
    run the code on concrete inputs. *)
Definition latitudeGain (a b : CLLocation) : Double :=
  match latitude a, latitude b with
  | Finite x, Finite y => Finite (x - y)
  | _, _ => NaN
  end.

Definition plainMetadata (m : option Metadata) : Metadata :=
  match m with Some entries => entries | None => [] end.

Definition metadataEntry (m : Metadata) (key : string) : option MetadataValue :=
  match find (fun e => String.eqb (fst e) key) m with
  | Some e => Some (snd e)
  | None => None
  end.

Definition stringEntry (m : Metadata) (key : string) : Completion (option string) :=
  Done (match metadataEntry m key with Some (MetaString s) => Some s | _ => None end).

Definition doubleEntry (m : Metadata) (key : string) : Completion (option Double) :=
  Done (match metadataEntry m key with Some (MetaNumber d) => Some d | _ => None end).

Definition serialized (store : RouteStore) (workout : HKWorkout)
  : Completion (list WorkoutRoute) :=
  Routes.getSerializedWorkoutLocations
    store latitudeGain plainMetadata stringEntry doubleEntry workout.

(** The claim C4 as the specification words it: the result of the anchored
    query is filtered to the routes, and when no sample is a route the
    operation resolves with the empty list. *)
Definition filtered_to_routes (store : RouteStore) (workout : HKWorkout)
           (samples : list HKSample) : Prop :=
  executeAnchored store workout = answers (Some samples) ->
  Routes.getWorkoutRoutesInternal store workout
    = Done (Some (routesAmong samples))
  /\ (routesAmong samples = [] -> serialized store workout = Done []).

(* ================================================================== *)
(** * Further vocabulary and inputs *)

(** A callback of the route query that makes the handler resume the
    continuation: it carries an error, or no batch, or the [done] flag. *)
Definition resumes (cb : RouteCallback) : bool :=
  match errorOrNil cb with
  | Some _ => true
  | None =>
      match locationsOrNil cb with
      | None => true
      | Some _ => done cb
      end
  end.

(** A store whose query fails. *)
Definition offline : SwiftError := HKError "The database is inaccessible".

Definition offlineStore : HealthStore MemoryStore.t :=
  {| effortSamplesRelated := fun _ st => (Throws offline, st);
     delete := delete MemoryStore.healthStore;
     relateWorkoutEffortSample :=
       relateWorkoutEffortSample MemoryStore.healthStore |}.

(** A route store whose second route never completes. *)
Definition loop2 : HKWorkoutRoute :=
  {| route_uuid := "route-2"; route_metadata := None |}.

Definition secondRouteStalls : RouteStore :=
  {| executeAnchored := fun _ =>
       answers (Some [WorkoutRouteSample loop1; WorkoutRouteSample loop2]);
     executeRouteQuery := fun route =>
       if String.eqb (route_uuid route) "route-1"
       then [delivery batchA true]
       else [delivery batchB false] |}.

(** A route builder in memory: it records the locations inserted and the
    workouts finished, and can be made to refuse either step. *)
Record BuilderState : Type := {
  inserted : list CLLocation;
  finished : list HKWorkout;
  refuseInsert : bool;
  refuseFinish : bool
}.

Definition memoryBuilder : RouteBuilder BuilderState :=
  {| insertRouteData := fun locations b =>
       if refuseInsert b then (Throws (HKError "insert refused"), b)
       else (Returns tt,
             {| inserted := inserted b ++ locations;
                finished := finished b;
                refuseInsert := refuseInsert b;
                refuseFinish := refuseFinish b |});
     finishRoute := fun workout b =>
       if refuseFinish b then (Throws (HKError "finish refused"), b)
       else (Returns tt,
             {| inserted := inserted b;
                finished := finished b ++ [workout];
                refuseInsert := refuseInsert b;
                refuseFinish := refuseFinish b |}) |}.

Definition freshBuilder : BuilderState :=
  {| inserted := []; finished := [];
     refuseInsert := false; refuseFinish := false |}.

(** Activity and event types as small enumerations: raw value 37 is
    running, 52 is walking; event 1 is pause, 2 is resume. *)
Inductive SampleActivity : Type := running | walking | otherActivity.

Definition sampleActivityOfRawValue (raw : Z) : option SampleActivity :=
  if Z.eqb raw 37 then Some running
  else if Z.eqb raw 52 then Some walking
  else if Z.eqb raw 3000 then Some otherActivity
  else None.

Inductive SampleEventType : Type := pause | resumeEvent.

Definition sampleEventTypeOfRawValue (raw : Z) : option SampleEventType :=
  if Z.eqb raw 1 then Some pause
  else if Z.eqb raw 2 then Some resumeEvent
  else None.

(** The raw value is one that [Int32(_)] accepts. *)
Definition fitsInt32 (z : Z) : Prop := (-2147483648 <= z <= 2147483647)%Z.

Section EventVocabulary.
Variable WorkoutEventType : Type.
Variable eventTypeOfRawValue : Z -> option WorkoutEventType.

(** The package knows the type of the event. *)
Definition knownEvent (event : HKWorkoutEvent) : bool :=
  match eventTypeOfRawValue (event_typeRawValue event) with
  | Some _ => true
  | None => false
  end.

(** [out] is [event] with its type decoded and its interval kept. *)
Definition serializes (event : HKWorkoutEvent)
           (out : Accessors.WorkoutEvent WorkoutEventType) : Prop :=
  eventTypeOfRawValue (event_typeRawValue event) = Some (Accessors.we_type out)
  /\ Accessors.we_startDate out = event_start event
  /\ Accessors.we_endDate out = event_end event.
End EventVocabulary.

Section MetadataVocabulary.
Variable AnyMap : Type.
Variable serializeMetadata : option Metadata -> AnyMap.
Variable getString : AnyMap -> string -> Completion (option string).
Variable getDouble : AnyMap -> string -> Completion (option Double).

(** The sync metadata of a route record are those read from the route. *)
Definition carriesMetadata (route : HKWorkoutRoute) (r : WorkoutRoute) : Prop :=
  getString (serializeMetadata (route_metadata route))
            "HKMetadataKeySyncIdentifier"
    = Done (HKMetadataKeySyncIdentifier r)
  /\ getDouble (serializeMetadata (route_metadata route))
               "HKMetadataKeySyncVersion"
     = Done (HKMetadataKeySyncVersion r).
End MetadataVocabulary.

(** Route stores that go on after [done], and that forget a batch. *)
Definition keepsDelivering : RouteStore :=
  {| executeAnchored := fun _ => answers (Some [WorkoutRouteSample loop1]);
     executeRouteQuery := fun _ =>
       undone [batchA] ++ [delivery batchB true] ++ undone [batchD] |}.

Definition forgetsBatch : RouteStore :=
  {| executeAnchored := fun _ => answers (Some [WorkoutRouteSample loop1]);
     executeRouteQuery := fun _ =>
       undone [batchA]
       ++ [ {| locationsOrNil := None; done := false; errorOrNil := None |} ] |}.

(** Plans with an activity the package knows, and one it does not know. *)
Definition runningPlan : HKWorkoutPlan :=
  {| plan_uuidString := "plan-running"; plan_activityRawValue := 37 |}.

Definition exoticPlan : HKWorkoutPlan :=
  {| plan_uuidString := "plan-exotic"; plan_activityRawValue := 9999 |}.

(** A pause, an event of a type unknown to the package, a resume. *)
Definition pauseAndResume : list HKWorkoutEvent :=
  [ {| event_typeRawValue := 1; event_start := 10; event_end := 10 |};
    {| event_typeRawValue := 77; event_start := 20; event_end := 25 |};
    {| event_typeRawValue := 2; event_start := 30; event_end := 30 |} ]%Z.

Definition withHugeType : list HKWorkoutEvent :=
  [ {| event_typeRawValue := 1; event_start := 10; event_end := 10 |};
    {| event_typeRawValue := 1099511627776; event_start := 20;
       event_end := 25 |} ]%Z.

(** The example component with a workout selected. *)
Definition onOldPlatform : Example.Component unit :=
  {| Example.workout := Some proxyWithoutEffort;
     Example.effortScore := Some (ofZ 4);
     Example.loading := false |}.

Definition onMorningRun
  : Example.Component (MemoryStore.t * list StoreCall) :=
  {| Example.workout := Some (morningRunProxy MemoryStore.healthStore);
     Example.effortScore := None;
     Example.loading := false |}.

(** How far a continuation is: not resumed, resumed once, misused. *)
Definition stage {A} (k : Continuation A) : nat :=
  match k with
  | Pending => 0
  | Resumed _ => 1
  | Misused _ => 2
  end.

(* ================================================================== *)
(** * Properties *)

(** ** Numbers *)

Lemma isInteger_Finite_iff (q : Q) :
  isInteger (Finite q) = true <-> exists z : Z, q == inject_Z z.
Proof.
  unfold isInteger. rewrite Pos.eqb_eq. split.
  - intros Hden. exists (Qnum (Qred q)).
    rewrite <- (Qred_correct q) at 1.
    destruct (Qred q) as [n d]. simpl in *. subst d. reflexivity.
  - intros [z Hz].
    pose proof (gcd_Qred q) as Hgcd.
    assert (Hr : Qred q == inject_Z z) by (rewrite Qred_correct; exact Hz).
    destruct (Qred q) as [n d]. unfold Qeq in Hr. simpl in *.
    rewrite Z.mul_1_r in Hr. subst n.
    rewrite Z.gcd_comm, (Z.mul_comm z), Z.gcd_mul_diag_l in Hgcd by lia.
    congruence.
Qed.

Lemma leb_ofZ_l (z : Z) (q : Q) :
  Num.leb (ofZ z) (Finite q) = true <-> inject_Z z <= q.
Proof. unfold Num.leb, ofZ. apply Qle_bool_iff. Qed.

Lemma leb_ofZ_r (z : Z) (q : Q) :
  Num.leb (Finite q) (ofZ z) = true <-> q <= inject_Z z.
Proof. unfold Num.leb, ofZ. apply Qle_bool_iff. Qed.

Lemma isValidWorkoutEffortScore_iff (s : number) :
  WorkoutEffort.isValidWorkoutEffortScore s = true <-> integerFrom1To10 s.
Proof.
  unfold WorkoutEffort.isValidWorkoutEffortScore, integerFrom1To10, geb.
  rewrite !andb_true_iff.
  destruct s as [q | | |].
  - rewrite isInteger_Finite_iff, leb_ofZ_l, leb_ofZ_r. split.
    + intros [[[z Hz] H1] H10]. exists z. split; [exact Hz|].
      rewrite Hz in H1, H10. rewrite <- Zle_Qle in H1, H10. lia.
    + intros [z [Hz [H1 H10]]]. simpl in Hz.
      repeat split.
      * exists z; exact Hz.
      * rewrite Hz, <- Zle_Qle; exact H1.
      * rewrite Hz, <- Zle_Qle; exact H10.
  - split; [intros [[H _] _]; discriminate | intros [z [[] _]]].
  - split; [intros [[H _] _]; discriminate | intros [z [[] _]]].
  - split; [intros [[H _] _]; discriminate | intros [z [[] _]]].
Qed.

(* ================================================================== *)
(** ** src/utils/workoutEffort.ts *)

Lemma prefix_iff (needle hay : string) :
  String.prefix needle hay = true
  <-> exists post, hay = (needle ++ post)%string.
Proof.
  revert hay. induction needle as [|c rest IH]; intros hay.
  - split; [intros _; exists hay; reflexivity | intros _; destruct hay; reflexivity].
  - destruct hay as [|h hay']; simpl;
      [split; [discriminate | intros [post H]; discriminate H]|].
    destruct (Ascii.ascii_dec c h) as [->|Hneq].
    + rewrite IH. split; intros [post H]; exists post.
      * rewrite H. reflexivity.
      * injection H as H. exact H.
    + split; [discriminate|]. intros [post H]. injection H as Hc _.
      congruence.
Qed.

Lemma includes_iff (needle hay : string) :
  WorkoutEffort.includes needle hay = true
  <-> exists pre post, hay = (pre ++ needle ++ post)%string.
Proof.
  induction hay as [|h rest IH].
  - cbn [WorkoutEffort.includes]. rewrite orb_false_r, prefix_iff. split.
    + intros [post H]. exists EmptyString, post. exact H.
    + intros (pre & post & H). destruct pre as [|c pre']; [|discriminate H].
      exists post. exact H.
  - cbn [WorkoutEffort.includes]. rewrite orb_true_iff, prefix_iff, IH. split.
    + intros [[post H] | (pre & post & H)].
      * exists EmptyString, post. exact H.
      * exists (String h pre), post. simpl. rewrite H. reflexivity.
    + intros (pre & post & H). destruct pre as [|c pre'].
      * left. exists post. exact H.
      * right. injection H as _ H. exists pre', post. exact H.
Qed.


Section EffortWrappers.
Context {W : Type}.
Variable numberToString : number -> string.
Variable workout : WorkoutProxy W.

Import WorkoutEffort.

Lemma setWorkoutEffortScore_invalid (s : number) (w : W) :
  isValidWorkoutEffortScore s = false ->
  setWorkoutEffortScore numberToString workout s w
  = mkRun (Throws (JsError (invalidMessage numberToString s))) w [].
Proof.
  intros Hs. unfold setWorkoutEffortScore. rewrite Hs. reflexivity.
Qed.

Lemma setWorkoutEffortScore_valid (s : number) (w : W) :
  isValidWorkoutEffortScore s = true ->
  setWorkoutEffortScore numberToString workout s w
  = let (o, w') := proxy_setWorkoutEffortScore workout s w in
    match o with
    | Returns b => mkRun (Returns b) w' [CallSetWorkoutEffortScore s]
    | Throws error =>
        mkRun (if unrecognizedSelector error
               then Throws (JsError unsupportedMessage) else Throws error)
              w' [CallSetWorkoutEffortScore s]
    end.
Proof.
  intros Hs. unfold setWorkoutEffortScore, try_catch, call. rewrite Hs.
  simpl. destruct (proxy_setWorkoutEffortScore workout s w) as [[b | error] w'];
    simpl; [reflexivity|].
  destruct (unrecognizedSelector error); reflexivity.
Qed.

Lemma getWorkoutEffortScore_run (w : W) :
  getWorkoutEffortScore workout w
  = let (o, w') := proxy_getWorkoutEffortScore workout w in
    match o with
    | Returns v => mkRun (Returns v) w' [CallGetWorkoutEffortScore]
    | Throws error =>
        mkRun (if unrecognizedSelector error
               then Returns None else Throws error)
              w' [CallGetWorkoutEffortScore]
    end.
Proof.
  unfold getWorkoutEffortScore, try_catch, call.
  destruct (proxy_getWorkoutEffortScore workout w) as [[v | error] w'];
    simpl; [reflexivity|].
  destruct (unrecognizedSelector error); reflexivity.
Qed.


(** C7.  [isValidWorkoutEffortScore s] holds exactly when [s] is an integer
    between 1 and 10; and [setWorkoutEffortScore w s] rejects with the
    validation error without having called the native side (whose state is
    untouched) exactly when [isValidWorkoutEffortScore s] is false. *)
Theorem C7_validation_guards_native_call (s : number) (w : W) :
  (isValidWorkoutEffortScore s = true <-> integerFrom1To10 s)
  /\ ((outcome (setWorkoutEffortScore numberToString workout s w)
         = Throws (JsError (invalidMessage numberToString s))
       /\ calls (setWorkoutEffortScore numberToString workout s w) = []
       /\ final (setWorkoutEffortScore numberToString workout s w) = w)
      <-> isValidWorkoutEffortScore s = false).
Proof.
  split; [apply isValidWorkoutEffortScore_iff|]. split.
  - intros (_ & Hcalls & _).
    destruct (isValidWorkoutEffortScore s) eqn:Hs; [|reflexivity].
    rewrite (setWorkoutEffortScore_valid _ _ Hs) in Hcalls.
    destruct (proxy_setWorkoutEffortScore workout s w) as [[b | error] w'];
      discriminate Hcalls.
  - intros Hs. rewrite (setWorkoutEffortScore_invalid _ _ Hs). auto.
Qed.


End EffortWrappers.




(** [isWorkoutEffortSupported] is a total function that never consults the
    platform version: it answers [true] on every platform. *)
Theorem isWorkoutEffortSupported_constantly_true (platform : PlatformVersion) :
  WorkoutEffort.isWorkoutEffortSupported platform = true.
Proof. reflexivity. Qed.

(** C2.  On iOS 17.0 the platform version is below 18.0, yet
    [isWorkoutEffortSupported] answers [true] and not [false]. *)
Lemma C2_supported_reported_below_18 :
  version_lt {| major := 17; minor := 0 |} 18 0
  /\ WorkoutEffort.isWorkoutEffortSupported {| major := 17; minor := 0 |}
     = true.
Proof. split; [left; simpl; lia | reflexivity]. Qed.

(* ================================================================== *)
(** ** ios/WorkoutProxy.swift: effort scores *)

Lemma lastOf_snoc {A} (xs : list A) (x : A) : lastOf (xs ++ [x]) = Some x.
Proof.
  induction xs as [|y ys IH]; [reflexivity|].
  simpl. rewrite IH. destruct (ys ++ [x]) eqn:E; [|reflexivity].
  destruct ys; discriminate E.
Qed.

Section EffLemmas.
Context {St Ev Ex : Type}.

Lemma bind_Returns {A B} (m : Eff (St:=St) (Ev:=Ev) (Ex:=Ex) A)
      (k : A -> Eff B) (s : St) (a : A) :
  outcome (m s) = Returns a ->
  bind m k s
  = mkRun (outcome (k a (final (m s)))) (final (k a (final (m s))))
          (calls (m s) ++ calls (k a (final (m s)))).
Proof. intros H. unfold bind. rewrite H. reflexivity. Qed.

Lemma bind_Throws {A B} (m : Eff (St:=St) (Ev:=Ev) (Ex:=Ex) A)
      (k : A -> Eff B) (s : St) (e : Ex) :
  outcome (m s) = Throws e ->
  bind m k s = mkRun (Throws e) (final (m s)) (calls (m s)).
Proof. intros H. unfold bind. rewrite H. reflexivity. Qed.

Lemma call_run {A} (ev : Ev) (op : St -> Outcome Ex A * St) (s : St) :
  call ev op s = mkRun (fst (op s)) (snd (op s)) [ev].
Proof. unfold call. destruct (op s); reflexivity. Qed.

Lemma bind_outcome_inv {A B} (m : Eff (St:=St) (Ev:=Ev) (Ex:=Ex) A)
      (k : A -> Eff B) (s : St) (b : B) :
  outcome (bind m k s) = Returns b ->
  exists a, outcome (m s) = Returns a
            /\ outcome (k a (final (m s))) = Returns b
            /\ final (bind m k s) = final (k a (final (m s))).
Proof.
  unfold bind. destruct (outcome (m s)) as [a | e]; simpl;
    [eauto | discriminate].
Qed.
End EffLemmas.

Section EffortInternal.
Context {S : Type}.
Variable store : HealthStore S.
Variable describe : Double -> string.
Variable bridge : SwiftError -> JsValue.
Variable numberToString : number -> string.

Import EffortScore WorkoutEffort.

(** Outside the closed range the native function throws before it reaches
    the store. *)
Lemma setInternal_out_of_range (workout : HKWorkout) (score : Double) (st : S) :
  geb score (ofZ 1) && Num.leb score (ofZ 10) = false ->
  setWorkoutEffortScoreInternal store describe workout score st
  = mkRun (Throws (RuntimeError (outOfRangeMessage describe score))) st [].
Proof.
  intros H. unfold setWorkoutEffortScoreInternal. rewrite H. reflexivity.
Qed.

(** Inside the range its first act is the query. *)
Lemma setInternal_in_range_queries (workout : HKWorkout) (score : Double) (st : S) :
  geb score (ofZ 1) && Num.leb score (ofZ 10) = true ->
  exists rest,
    calls (setWorkoutEffortScoreInternal store describe workout score st)
    = QueryEffortSamples workout :: rest.
Proof.
  intros H. unfold setWorkoutEffortScoreInternal. rewrite H. simpl.
  match goal with |- context [bind ?m ?k st] =>
    destruct (outcome (m st)) as [existing | e] eqn:Hq;
    [rewrite (bind_Returns m k st Hq) | rewrite (bind_Throws m k st Hq)]
  end; rewrite call_run; simpl; eauto.
Qed.

(** A successful run ends with the relate step, whose resulting store is
    the final one; failed deletions before it do not matter. *)
Lemma setInternal_success (workout : HKWorkout) (score : Double) (st : S) (b : bool) :
  outcome (setWorkoutEffortScoreInternal store describe workout score st)
    = Returns b ->
  b = true
  /\ exists s1,
      relateWorkoutEffortSample store (effortSample workout score) workout s1
      = (Returns tt,
         final (setWorkoutEffortScoreInternal store describe workout score st)).
Proof.
  unfold setWorkoutEffortScoreInternal.
  destruct (negb (geb score (ofZ 1) && Num.leb score (ofZ 10)));
    [discriminate|].
  fold (effortSample workout score). intros Hrun.
  apply bind_outcome_inv in Hrun as (existing & _ & Hrun & ->).
  apply bind_outcome_inv in Hrun as ([] & _ & Hrun & ->).
  apply bind_outcome_inv in Hrun as ([] & Hrel & Hrun & ->).
  injection Hrun as <-. split; [reflexivity|].
  rewrite call_run in Hrel |- *. simpl in Hrel |- *.
  match type of Hrel with fst (?op ?s1) = _ => exists s1 end.
  destruct (relateWorkoutEffortSample _ _ _ _) as [o s2]. simpl in *.
  subst o. reflexivity.
Qed.

Lemma getInternal_newest (workout : HKWorkout) (st st' : S)
      (earlier : list HKSample) (effort : HKQuantitySample) :
  effortSamplesRelated store workout st
    = (Returns (earlier ++ [QuantitySample effort]), st') ->
  outcome (getWorkoutEffortScoreInternal store workout st)
    = Returns (Some (quantity effort)).
Proof.
  intros Hq. unfold getWorkoutEffortScoreInternal, bind, call.
  rewrite Hq. simpl. rewrite lastOf_snoc. reflexivity.
Qed.

(** C1.  On a store that lists the sample related last at the end of the
    query result: when [setWorkoutEffortScore w s] resolves, [s] is a valid
    score and [getWorkoutEffortScore w], run next, resolves with [s].  The
    outcome of the deletions plays no part: they may all have failed. *)
Theorem C1_set_then_get_round_trip
        (workout : HKWorkout) (s : number) (native : S * list StoreCall)
        (b : bool) :
  newest_last store ->
  outcome (setWorkoutEffortScore numberToString
             (hybridWorkoutProxy store describe bridge workout) s native)
    = Returns b ->
  isValidWorkoutEffortScore s = true
  /\ outcome
       (getWorkoutEffortScore
          (hybridWorkoutProxy store describe bridge workout)
          (final (setWorkoutEffortScore numberToString
                    (hybridWorkoutProxy store describe bridge workout)
                    s native)))
     = Returns (Some s).
Proof.
  intros Hlast Hset.
  destruct (isValidWorkoutEffortScore s) eqn:Hs.
  2:{ rewrite (setWorkoutEffortScore_invalid _ _ _ _ Hs) in Hset.
      discriminate Hset. }
  split; [reflexivity|].
  rewrite (setWorkoutEffortScore_valid _ _ _ _ Hs) in Hset |- *.
  destruct native as [st log]. simpl in Hset |- *.
  destruct (outcome (setWorkoutEffortScoreInternal store describe workout s st))
    as [b' | e] eqn:Hint; simpl in Hset |- *.
  - destruct (setInternal_success _ _ _ Hint) as [_ [s1 Hrel]].
    destruct (Hlast _ _ _ _ Hrel) as (earlier & s'' & Hq).
    rewrite getWorkoutEffortScore_run. simpl.
    erewrite getInternal_newest by exact Hq. reflexivity.
  - destruct (unrecognizedSelector (bridge e)); discriminate Hset.
Qed.

End EffortInternal.

Section Deletions.
Context {S : Type}.
Variable store : HealthStore S.

(** The deletion loop of [setWorkoutEffortScoreInternal] returns normally
    whatever the store answers to each [delete]. *)
Lemma deletions_are_tolerated (existing : list HKSample) (st : S) :
  outcome
    (forEach existing
       (fun sample =>
          try_catch (call (DeleteSample sample) (delete store sample))
                    (fun _ : SwiftError => ret tt)) st)
  = Returns tt.
Proof.
  revert st. induction existing as [|sample rest IH]; intros st;
    [reflexivity|].
  simpl. unfold bind, try_catch. rewrite call_run. simpl.
  destruct (fst (delete store sample st)) as [[] | e]; simpl; apply IH.
Qed.

(** In range, with a query and a relate step that succeed, the native
    function returns [true] whatever became of the deletions. *)
Lemma set_succeeds_despite_failed_deletions
      (describe : Double -> string) (workout : HKWorkout) (score : Double)
      (st s0 s2 : S) (existing : list HKSample) :
  geb score (ofZ 1) && Num.leb score (ofZ 10) = true ->
  effortSamplesRelated store workout st = (Returns existing, s0) ->
  relateWorkoutEffortSample store (effortSample workout score) workout
    (final (forEach existing
              (fun sample =>
                 try_catch (call (DeleteSample sample) (delete store sample))
                           (fun _ : SwiftError => ret tt)) s0))
    = (Returns tt, s2) ->
  outcome (EffortScore.setWorkoutEffortScoreInternal
             store describe workout score st) = Returns true
  /\ final (EffortScore.setWorkoutEffortScoreInternal
              store describe workout score st) = s2.
Proof.
  intros Hrange Hquery Hrelate.
  unfold EffortScore.setWorkoutEffortScoreInternal. rewrite Hrange. simpl.
  fold (effortSample workout score).
  erewrite bind_Returns by (rewrite call_run, Hquery; reflexivity).
  rewrite call_run, Hquery. simpl.
  erewrite bind_Returns by apply deletions_are_tolerated. simpl.
  erewrite bind_Returns by (rewrite call_run, Hrelate; reflexivity).
  rewrite call_run, Hrelate. split; reflexivity.
Qed.
End Deletions.

(** *** The in-memory store *)

Lemma memory_newest_last : newest_last MemoryStore.healthStore.
Proof.
  intros effort workout st st'. simpl.
  destruct (MemoryStore.writesDenied st); [discriminate|].
  intros H. injection H as <-.
  exists (MemoryStore.relatedTo workout st). eexists.
  unfold MemoryStore.relatedTo. simpl.
  rewrite filter_app, map_app. simpl. rewrite String.eqb_refl. reflexivity.
Qed.

(** C1 on the in-memory store that refuses deletions: score 3, then 9. *)
Lemma C1_witness :
  (* the sample of score 3 is still there, and its deletion was attempted *)
  MemoryStore.relatedTo morningRun (fst (afterNine MemoryStore.healthStore))
    = [QuantitySample (effortSample morningRun (ofZ 3));
       QuantitySample (effortSample morningRun (ofZ 9))]
  /\ In (DeleteSample (QuantitySample (effortSample morningRun (ofZ 3))))
        (snd (afterNine MemoryStore.healthStore))
  /\ outcome
       (WorkoutEffort.getWorkoutEffortScore
          (morningRunProxy MemoryStore.healthStore)
          (afterNine MemoryStore.healthStore))
     = Returns (Some (ofZ 9)).
Proof.
  split; [reflexivity|]. split; [do 3 right; left; reflexivity|].
  exact (proj2 (@C1_set_then_get_round_trip
                  MemoryStore.t MemoryStore.healthStore
                  (fun _ => "?"%string) errorToJs (fun _ => "?"%string)
                  morningRun (ofZ 9) (afterThree MemoryStore.healthStore)
                  true memory_newest_last eq_refl)).
Defined.

(** C1 fails as worded.  On a store whose query lists the newest sample
    first, and which refuses deletions, setting the score 3 and then the
    score 9 both resolve with [true], yet [getWorkoutEffortScore] then
    answers 3 and not 9: the code takes the last sample of a query made
    without sort descriptor. *)
Lemma C1_newest_first_store_answers_3 :
  outcome (WorkoutEffort.setWorkoutEffortScore
             (fun _ => "?"%string) (morningRunProxy MemoryStore.newestFirst)
             (ofZ 3) (undeletable, []))
    = Returns true
  /\ outcome (WorkoutEffort.setWorkoutEffortScore
                (fun _ => "?"%string) (morningRunProxy MemoryStore.newestFirst)
                (ofZ 9) (afterThree MemoryStore.newestFirst))
     = Returns true
  /\ outcome (WorkoutEffort.getWorkoutEffortScore
                (morningRunProxy MemoryStore.newestFirst)
                (afterNine MemoryStore.newestFirst))
     = Returns (Some (ofZ 3))
  /\ outcome (WorkoutEffort.getWorkoutEffortScore
                (morningRunProxy MemoryStore.newestFirst)
                (afterNine MemoryStore.newestFirst))
     <> Returns (Some (ofZ 9)).
Proof. repeat split. discriminate. Qed.

(** On the in-memory store the score 7.5 is indeed stored by the native
    function and read back. *)
Remark fractional_score_is_stored :
  outcome (EffortScore.setWorkoutEffortScoreInternal
             MemoryStore.healthStore (fun _ => "7.5"%string)
             morningRun sevenAndAHalf undeletable)
    = Returns true
  /\ outcome (EffortScore.getWorkoutEffortScoreInternal
                MemoryStore.healthStore morningRun
                (final (EffortScore.setWorkoutEffortScoreInternal
                          MemoryStore.healthStore (fun _ => "7.5"%string)
                          morningRun sevenAndAHalf undeletable)))
     = Returns (Some sevenAndAHalf).
Proof. split; reflexivity. Qed.

(* ================================================================== *)
(** ** ios/WorkoutProxy.swift: workout routes *)

Section RouteLocations.
Import Routes.

(** Batches delivered without [done] are appended and leave the
    continuation as it was. *)
Lemma undone_batches_accumulate (batches : list (list CLLocation)) :
  forall (allLocations : list CLLocation)
         (k : Continuation (list CLLocation)),
    fold_left locationsHandler (undone batches) (allLocations, k)
    = (allLocations ++ concat batches, k).
Proof.
  induction batches as [|batch rest IH]; intros allLocations k; simpl.
  - rewrite app_nil_r. reflexivity.
  - rewrite IH, app_assoc. reflexivity.
Qed.


Lemma continuation_after_error (batches : list (list CLLocation))
      (batch : option (list CLLocation)) (isLast : bool) (e : SwiftError) :
  routeLocationsContinuation (undone batches ++ [failure batch isLast e])
  = Resumed (Throws e).
Proof.
  unfold routeLocationsContinuation.
  rewrite fold_left_app, undone_batches_accumulate. reflexivity.
Qed.

Variable store : RouteStore.


(** An error that follows any number of delivered batches resumes the
    continuation by throwing it; [try!] then turns it into a trap. *)
Lemma error_in_route_query_traps
      (route : HKWorkoutRoute) (batches : list (list CLLocation))
      (batch : option (list CLLocation)) (isLast : bool) (e : SwiftError) :
  executeRouteQuery store route
    = undone batches ++ [failure batch isLast e] ->
  getRouteLocations store route = Trap (ForcedTryFailed e).
Proof.
  intros Hexec. unfold getRouteLocations.
  rewrite Hexec, continuation_after_error. reflexivity.
Qed.

End RouteLocations.


(** C3.  The route query of [failsAfterFirstBatch] delivers one batch and then
    an error.  The continuation is resumed by throwing that error, but
    [getRouteLocations] applies [try!] to it: the call traps, and so does
    [getSerializedWorkoutLocations]; no error is thrown to the caller. *)
Lemma C3_error_after_first_batch_traps :
  Routes.routeLocationsContinuation
    (executeRouteQuery failsAfterFirstBatch loop1)
    = Resumed (Throws permissionLost)
  /\ Routes.getRouteLocations failsAfterFirstBatch loop1
     = Trap (ForcedTryFailed permissionLost)
  /\ serialized failsAfterFirstBatch morningRun
     = Trap (ForcedTryFailed permissionLost)
  /\ serialized failsAfterFirstBatch morningRun <> Error permissionLost.
Proof. repeat split; try reflexivity. discriminate. Qed.

Lemma asWorkoutRoutes_all_or_nothing (samples : list HKSample) :
  Routes.asWorkoutRoutes samples
  = if forallb isWorkoutRoute samples then Some (routesAmong samples) else None.
Proof.
  induction samples as [|sample rest IH]; [reflexivity|].
  destruct sample; simpl; try reflexivity.
  rewrite IH. destruct (forallb isWorkoutRoute rest); reflexivity.
Qed.

Section RouteList.
Import Routes.
Variable distance_from : CLLocation -> CLLocation -> Double.
Variable AnyMap : Type.
Variable serializeMetadata : option Metadata -> AnyMap.
Variable getString : AnyMap -> string -> Completion (option string).
Variable getDouble : AnyMap -> string -> Completion (option Double).

Let routesOf (store : RouteStore) (workout : HKWorkout) :=
  getSerializedWorkoutLocations
    store distance_from serializeMetadata getString getDouble workout.

Lemma getWorkoutRoutesInternal_answer
      (store : RouteStore) (workout : HKWorkout)
      (samples : option (list HKSample)) :
  executeAnchored store workout = answers samples ->
  getWorkoutRoutesInternal store workout
  = match samples with
    | None => Error (RuntimeError "Empty response")
    | Some samples => Done (asWorkoutRoutes samples)
    end.
Proof.
  intros Hexec. unfold getWorkoutRoutesInternal. rewrite Hexec.
  destruct samples as [samples|]; simpl; [|reflexivity].
  destruct (asWorkoutRoutes samples); reflexivity.
Qed.

(** C9.  When the single callback of the anchored query carries neither an
    error nor a sample list, [getWorkoutRoutesInternal], and with it
    [getSerializedWorkoutLocations], throws "Empty response"; when it
    carries the empty list, they return no routes and throw nothing. *)
Theorem C9_empty_response_is_not_empty_list
        (silent empty : RouteStore) (workout : HKWorkout) :
  executeAnchored silent workout = answers None ->
  executeAnchored empty workout = answers (Some []) ->
  (getWorkoutRoutesInternal silent workout
     = Error (RuntimeError "Empty response")
   /\ routesOf silent workout = Error (RuntimeError "Empty response"))
  /\ (getWorkoutRoutesInternal empty workout = Done (Some [])
      /\ routesOf empty workout = Done []).
Proof.
  intros Hsilent Hempty. unfold routesOf, getSerializedWorkoutLocations.
  rewrite (getWorkoutRoutesInternal_answer _ _ Hsilent).
  rewrite (getWorkoutRoutesInternal_answer _ _ Hempty).
  repeat split.
Qed.

(** C4, as the code has it.  The sample list of the anchored query is cast
    as a whole: an empty list gives an empty route list; a list of routes
    only gives those routes, serialized in order; a list with any sample of
    another kind makes the operation throw "Unexpected empty response". *)
Theorem C4_sample_list_cast_as_a_whole
        (store : RouteStore) (workout : HKWorkout) (samples : list HKSample) :
  executeAnchored store workout = answers (Some samples) ->
  routesOf store workout
  = match samples with
    | [] => Done []
    | _ :: _ =>
        if forallb isWorkoutRoute samples then
          serializeRoutes store distance_from serializeMetadata
                          getString getDouble (routesAmong samples) []
        else Error (RuntimeError "Unexpected empty response")
    end.
Proof.
  intros Hexec. unfold routesOf, getSerializedWorkoutLocations.
  rewrite (getWorkoutRoutesInternal_answer _ _ Hexec).
  rewrite asWorkoutRoutes_all_or_nothing.
  destruct samples as [|sample rest]; [reflexivity|].
  destruct (forallb isWorkoutRoute (sample :: rest)); reflexivity.
Qed.

End RouteList.

(** C4 fails as worded.  The store answers with one sample that is not a
    route: no sample is a route, yet the operation throws "Unexpected empty
    response" where the filter would have given the empty route list. *)
Lemma C4_non_route_sample_is_an_error :
  executeAnchored answersStray morningRun = answers (Some strayHeartRate)
  /\ routesAmong strayHeartRate = []
  /\ serialized answersStray morningRun
     = Error (RuntimeError "Unexpected empty response")
  /\ ~ filtered_to_routes answersStray morningRun strayHeartRate.
Proof.
  repeat split. intros H.
  destruct (H eq_refl) as [_ Hempty]. discriminate (Hempty eq_refl).
Qed.

(** The amended C4 on the same store. *)
Lemma C4_witness :
  serialized answersStray morningRun
    = Error (RuntimeError "Unexpected empty response").
Proof.
  exact (@C4_sample_list_cast_as_a_whole
           latitudeGain Metadata plainMetadata stringEntry doubleEntry
           answersStray morningRun strayHeartRate eq_refl).
Defined.

(** C9 on a store whose callback carries nothing, and on one whose callback
    carries the empty list. *)
Lemma C9_witness :
  serialized silentStore morningRun = Error (RuntimeError "Empty response")
  /\ serialized noRoutes morningRun = Done [].
Proof.
  destruct (@C9_empty_response_is_not_empty_list
              latitudeGain Metadata plainMetadata stringEntry doubleEntry
              silentStore noRoutes morningRun eq_refl eq_refl)
    as [[_ Hsilent] [_ Hempty]].
  split; [exact Hsilent | exact Hempty].
Defined.

(* ================================================================== *)
(** ** Distances along a reconstructed route *)

Lemma nth_error_before_suffix {A} (pre suffix : list A) :
  pre <> [] ->
  nth_error (pre ++ suffix) (length pre - 1) = lastOf pre.
Proof.
  induction pre as [|x rest IH]; intros Hne; [congruence|].
  destruct rest as [|y rest']; [reflexivity|].
  replace (length (x :: y :: rest') - 1)%nat
    with (S (length (y :: rest') - 1)) by (simpl; lia).
  change (lastOf (x :: y :: rest')) with (lastOf (y :: rest')).
  rewrite <- IH by discriminate. reflexivity.
Qed.

Lemma lastOf_nonempty {A} (x : A) (xs : list A) : lastOf (x :: xs) <> None.
Proof.
  revert x. induction xs as [|y ys IH]; intros x; [discriminate|].
  exact (IH y).
Qed.

Section Distances.
Import Routes.
Variable distance_from : CLLocation -> CLLocation -> Double.

(** The subscript [routeCLLocations[i - 1]] is always in range: the map
    over the enumerated locations never traps, and pairs each location
    with its predecessor. *)
Lemma serializeLocations_from (locs : list CLLocation) :
  forall suffix pre,
    pre ++ suffix = locs ->
    enumeratedMapFrom (length pre) suffix
      (fun i loc =>
         previousLocation <~
           (if Nat.eqb i 0 then Done None
            else (p <~ subscript locs (i - 1) ;; Done (Some p))) ;;
         Done (serializeLocation distance_from loc previousLocation))
    = Done (withPrevious distance_from (lastOf pre) suffix).
Proof.
  induction suffix as [|loc rest IH]; intros pre Hsplit; [reflexivity|].
  simpl.
  assert (Hprev :
            (if Nat.eqb (length pre) 0 then Done None
             else (p <~ subscript locs (length pre - 1) ;; Done (Some p)))
            = Done (lastOf pre)).
  { destruct pre as [|x pre']; [reflexivity|].
    simpl Nat.eqb. cbv iota. unfold subscript.
    rewrite <- Hsplit, nth_error_before_suffix by discriminate.
    destruct (lastOf (x :: pre')) eqn:Hlast; [reflexivity|].
    destruct (lastOf_nonempty _ _ Hlast). }
  rewrite Hprev. simpl.
  specialize (IH (pre ++ [loc])).
  rewrite length_app, Nat.add_1_r, lastOf_snoc in IH.
  rewrite IH by (rewrite <- app_assoc; exact Hsplit).
  reflexivity.
Qed.

Lemma serializeLocations_total (locs : list CLLocation) :
  serializeLocations distance_from locs
  = Done (withPrevious distance_from None locs).
Proof. exact (@serializeLocations_from locs locs [] eq_refl). Qed.

Lemma withPrevious_length (locs : list CLLocation) :
  forall previous,
    length (withPrevious distance_from previous locs) = length locs.
Proof.
  induction locs as [|loc rest IH]; intros previous; simpl;
    [reflexivity | rewrite IH; reflexivity].
Qed.

Lemma withPrevious_nth (locs : list CLLocation) :
  forall previous i loc,
    nth_error locs i = Some loc ->
    nth_error (withPrevious distance_from previous locs) i
    = Some (serializeLocation distance_from loc
              match i with
              | O => previous
              | S j => nth_error locs j
              end).
Proof.
  induction locs as [|first rest IH]; intros previous i loc Hi.
  - destruct i; discriminate Hi.
  - destruct i as [|j]; simpl in *.
    + injection Hi as <-. reflexivity.
    + rewrite (IH (Some first) j loc Hi).
      destruct j; reflexivity.
Qed.

Lemma withPrevious_distancesFollow (locs : list CLLocation) :
  distancesFollow distance_from locs (withPrevious distance_from None locs).
Proof.
  split; [apply withPrevious_length|].
  intros i loc Hi. eexists. split; [apply withPrevious_nth; exact Hi|].
  repeat split. destruct i as [|j]; [reflexivity|].
  assert (Hj : (j < length locs)%nat).
  { apply Nat.lt_succ_l, nth_error_Some. congruence. }
  destruct (nth_error locs j) as [previous|] eqn:Hprev.
  - exists previous. split; reflexivity.
  - apply nth_error_Some in Hj. congruence.
Qed.

Variable store : RouteStore.
Variable AnyMap : Type.
Variable serializeMetadata : option Metadata -> AnyMap.
Variable getString : AnyMap -> string -> Completion (option string).
Variable getDouble : AnyMap -> string -> Completion (option Double).

Lemma serializeRoutes_reconstructs (routes : list HKWorkoutRoute) :
  forall allRoutes out,
    serializeRoutes store distance_from serializeMetadata getString getDouble
                    routes allRoutes = Done out ->
    exists added, out = allRoutes ++ added
                  /\ Forall2 (reconstructs distance_from store) routes added.
Proof.
  induction routes as [|route rest IH]; intros allRoutes out Hrun.
  - injection Hrun as <-. exists []. rewrite app_nil_r. split; constructor.
  - simpl in Hrun.
    destruct (getRouteLocations store route) as [locs | | |] eqn:Hlocs;
      try discriminate Hrun.
    simpl in Hrun. rewrite serializeLocations_total in Hrun. simpl in Hrun.
    destruct (getString _ _) as [syncIdentifier | | |];
      try discriminate Hrun. simpl in Hrun.
    destruct (getDouble _ _) as [syncVersion | | |];
      try discriminate Hrun. simpl in Hrun.
    destruct (IH _ _ Hrun) as (added & -> & Hrest).
    eexists (_ :: added). rewrite <- app_assoc. split; [reflexivity|].
    constructor; [|exact Hrest].
    exists locs. split; [exact Hlocs|]. apply withPrevious_distancesFollow.
Qed.

(** C5.  Whenever [getSerializedWorkoutLocations] returns, each route of
    the result lists the locations that the store delivered for the
    corresponding route sample, in delivery order; the entry at index 0 has
    no distance, and the entry at each index i > 0 has the distance, by the
    platform's primitive, between location i-1 and location i. *)
Theorem C5_distance_from_previous_location
        (workout : HKWorkout) (out : list WorkoutRoute) :
  getSerializedWorkoutLocations
    store distance_from serializeMetadata getString getDouble workout
    = Done out ->
  exists routes,
    getWorkoutRoutesInternal store workout = Done (Some routes)
    /\ Forall2 (reconstructs distance_from store) routes out.
Proof.
  unfold getSerializedWorkoutLocations. intros Hrun.
  destruct (getWorkoutRoutesInternal store workout)
    as [[routes|] | | |]; try discriminate Hrun.
  simpl in Hrun. exists routes. split; [reflexivity|].
  destruct (serializeRoutes_reconstructs _ _ Hrun) as (added & -> & Hall).
  exact Hall.
Qed.

End Distances.

(** C5 on the route delivered in four batches. *)
Lemma C5_witness :
  exists routes,
    Routes.getWorkoutRoutesInternal fourBatches morningRun = Done (Some routes)
    /\ Forall2 (reconstructs latitudeGain fourBatches) routes
         [ {| locations := withPrevious latitudeGain None
                             (batchA ++ batchB ++ batchD);
              HKMetadataKeySyncIdentifier := Some "sync-1"%string;
              HKMetadataKeySyncVersion := Some (Finite 2) |} ].
Proof.
  exact (@C5_distance_from_previous_location
           latitudeGain fourBatches Metadata plainMetadata stringEntry
           doubleEntry morningRun _ eq_refl).
Defined.

(** On that route the second entry carries the latitude gained since the
    first, and the first carries none. *)
Remark distances_of_the_first_two_fixes :
  match serialized fourBatches morningRun with
  | Done [ {| locations := first :: second :: _ |} ] =>
      wl_distance first = None
      /\ wl_distance second
         = Some (Finite ((592 # 10) - (591 # 10)))
  | _ => False
  end.
Proof. split; reflexivity. Qed.

(* ================================================================== *)
(** * Further properties *)

(** ** src/utils/workoutEffort.ts *)

Lemma integerKey_same (score : number) (z : Z) :
  WorkoutEffort.integerKey score = Some z <-> same score (ofZ z).
Proof.
  destruct score as [q | | |];
    try (simpl; split; [discriminate | tauto]).
  unfold WorkoutEffort.integerKey, isInteger, same, ofZ.
  destruct (Pos.eqb (Qden (Qred q)) 1) eqn:Hden.
  - apply Pos.eqb_eq in Hden.
    assert (Hq : q == inject_Z (Qnum (Qred q))).
    { rewrite <- (Qred_correct q) at 1.
      destruct (Qred q) as [n d]. simpl in *. subst d. reflexivity. }
    split.
    + intros H. injection H as <-. exact Hq.
    + intros Hz. f_equal. apply inject_Z_injective.
      transitivity q; [symmetry; exact Hq | exact Hz].
  - split; [discriminate|]. intros Hz.
    assert (Hint : isInteger (Finite q) = true)
      by (apply isInteger_Finite_iff; exists z; exact Hz).
    unfold isInteger in Hint. congruence.
Qed.

Lemma property_descriptions_defined (z : Z) :
  WorkoutEffort.property WorkoutEffort.descriptions z <> None
  <-> (1 <= z <= 10)%Z.
Proof.
  split.
  - intros Hdef.
    destruct (Z_le_dec 1 z) as [H1|H1], (Z_le_dec z 10) as [H10|H10];
      try lia; exfalso; apply Hdef;
      unfold WorkoutEffort.descriptions, WorkoutEffort.property;
      repeat (match goal with
              | |- context [Z.eqb ?k z] =>
                  destruct (Z.eqb_spec k z); [lia|]
              end); reflexivity.
  - intros Hz.
    assert (Hcases : (z = 1 \/ z = 2 \/ z = 3 \/ z = 4 \/ z = 5 \/ z = 6
                      \/ z = 7 \/ z = 8 \/ z = 9 \/ z = 10)%Z) by lia.
    repeat (destruct Hcases as [-> | Hcases]; [discriminate|]).
    subst z. discriminate.
Qed.

Lemma property_descriptions_injective (z1 z2 : Z) (d : string) :
  WorkoutEffort.property WorkoutEffort.descriptions z1 = Some d ->
  WorkoutEffort.property WorkoutEffort.descriptions z2 = Some d ->
  z1 = z2.
Proof.
  intros H1 H2.
  assert (R1 : (1 <= z1 <= 10)%Z)
    by (apply property_descriptions_defined; congruence).
  assert (R2 : (1 <= z2 <= 10)%Z)
    by (apply property_descriptions_defined; congruence).
  assert (C1 : (z1 = 1 \/ z1 = 2 \/ z1 = 3 \/ z1 = 4 \/ z1 = 5 \/ z1 = 6
                \/ z1 = 7 \/ z1 = 8 \/ z1 = 9 \/ z1 = 10)%Z) by lia.
  assert (C2 : (z2 = 1 \/ z2 = 2 \/ z2 = 3 \/ z2 = 4 \/ z2 = 5 \/ z2 = 6
                \/ z2 = 7 \/ z2 = 8 \/ z2 = 9 \/ z2 = 10)%Z) by lia.
  clear R1 R2.
  destruct C1 as [-> | [-> | [-> | [-> | [-> | [-> | [-> | [-> | [-> | ->]]]]]]]]];
    vm_compute in H1; injection H1 as <-;
    destruct C2 as [-> | [-> | [-> | [-> | [-> | [-> | [-> | [-> | [-> | ->]]]]]]]]];
    first [reflexivity | discriminate H2].
Qed.

Lemma valid_score_has_description (score : number) :
  WorkoutEffort.isValidWorkoutEffortScore score = true ->
  exists description,
    WorkoutEffort.getWorkoutEffortDescription score = Some description.
Proof.
  intros Hvalid. apply isValidWorkoutEffortScore_iff in Hvalid.
  destruct Hvalid as (z & Hz & Hrange).
  apply integerKey_same in Hz.
  unfold WorkoutEffort.getWorkoutEffortDescription. rewrite Hz.
  apply property_descriptions_defined in Hrange.
  destruct (WorkoutEffort.property WorkoutEffort.descriptions z)
    as [description|]; [eauto | congruence].
Qed.

(** X1.  [getWorkoutEffortDescription] has a description for a number
    exactly when [isValidWorkoutEffortScore] accepts it; for every other
    number the result is [undefined]. *)
Theorem description_defined_iff_valid (score : number) :
  WorkoutEffort.getWorkoutEffortDescription score <> None
  <-> WorkoutEffort.isValidWorkoutEffortScore score = true.
Proof.
  rewrite isValidWorkoutEffortScore_iff.
  unfold WorkoutEffort.getWorkoutEffortDescription, integerFrom1To10.
  destruct (WorkoutEffort.integerKey score) as [key|] eqn:Hkey.
  - apply integerKey_same in Hkey. rewrite property_descriptions_defined.
    split.
    + intros Hrange. exists key. split; assumption.
    + intros (z & Hz & Hrange).
      destruct score as [q | | |]; simpl in Hkey, Hz; try contradiction.
      assert (Hzk : inject_Z z == inject_Z key)
        by (transitivity q; [symmetry; exact Hz | exact Hkey]).
      apply (proj1 (inject_Z_injective z key)) in Hzk. subst z. exact Hrange.
  - split; [congruence|]. intros (z & Hz & _).
    apply integerKey_same in Hz. congruence.
Qed.

(** X2.  Two numbers with the same description are the same score: the ten
    descriptions are pairwise different. *)
Theorem description_determines_score (s1 s2 : number) (d : string) :
  WorkoutEffort.getWorkoutEffortDescription s1 = Some d ->
  WorkoutEffort.getWorkoutEffortDescription s2 = Some d ->
  same s1 s2.
Proof.
  unfold WorkoutEffort.getWorkoutEffortDescription.
  destruct (WorkoutEffort.integerKey s1) as [k1|] eqn:H1; [|discriminate].
  destruct (WorkoutEffort.integerKey s2) as [k2|] eqn:H2; [|discriminate].
  intros D1 D2.
  rewrite (property_descriptions_injective _ _ D1 D2) in H1.
  apply integerKey_same in H1, H2.
  destruct s1 as [q1 | | |], s2 as [q2 | | |]; simpl in *; try contradiction.
  transitivity (inject_Z k2); [exact H1 | symmetry; exact H2].
Qed.

Lemma description_determines_score_witness :
  same (Finite (14 # 2)) (ofZ 7).
Proof.
  exact (@description_determines_score
           (Finite (14 # 2)) (ofZ 7) "Very Hard" eq_refl eq_refl).
Defined.

Section WrapperDiscipline.
Context {W : Type}.
Variable numberToString : number -> string.
Variable workout : WorkoutProxy W.

Import WorkoutEffort.

(** X3.  Whatever the native side does, [getWorkoutEffortScore] makes
    exactly one native call, the get; [setWorkoutEffortScore] makes the one
    set call with the score it was given when the score is valid, and no
    call at all otherwise. *)
Theorem wrappers_make_at_most_one_native_call (s : number) (w : W) :
  calls (getWorkoutEffortScore workout w) = [CallGetWorkoutEffortScore]
  /\ calls (setWorkoutEffortScore numberToString workout s w)
     = (if isValidWorkoutEffortScore s then [CallSetWorkoutEffortScore s]
        else []).
Proof.
  split.
  - rewrite getWorkoutEffortScore_run.
    destruct (proxy_getWorkoutEffortScore workout w) as [[v | e] w'];
      reflexivity.
  - destruct (isValidWorkoutEffortScore s) eqn:Hs.
    + rewrite (setWorkoutEffortScore_valid _ _ _ _ Hs).
      destruct (proxy_setWorkoutEffortScore workout s w) as [[b | e] w'];
        reflexivity.
    + rewrite (setWorkoutEffortScore_invalid _ _ _ _ Hs). reflexivity.
Qed.

(** X4.  After a failed native call, [getWorkoutEffortScore] resolves with
    [null] exactly when the value thrown is an [Error] whose message contains
    "unrecognized selector" somewhere; a value that is not an [Error] is
    rethrown even when its text contains the phrase. *)
Theorem null_exactly_for_selector_errors (w w' : W) (error : JsValue) :
  proxy_getWorkoutEffortScore workout w = (Throws error, w') ->
  (outcome (getWorkoutEffortScore workout w) = Returns None
   <-> exists pre post,
       error = JsError (pre ++ "unrecognized selector" ++ post)%string)
  /\ (forall text, error = JsOther text ->
      outcome (getWorkoutEffortScore workout w) = Throws error).
Proof.
  intros Hget. rewrite getWorkoutEffortScore_run, Hget. simpl. split.
  - destruct error as [message | text]; simpl.
    + destruct (includes "unrecognized selector" message) eqn:Hinc.
      * split; [intros _ | reflexivity].
        apply includes_iff in Hinc. destruct Hinc as (pre & post & ->).
        exists pre, post. reflexivity.
      * split; [discriminate|]. intros (pre & post & H).
        assert (Hyes : includes "unrecognized selector" message = true)
          by (apply includes_iff; exists pre, post; injection H as H; exact H).
        congruence.
    + split; [discriminate | intros (pre & post & H); discriminate H].
  - intros text ->. reflexivity.
Qed.

(** X5.  Neither wrapper lets a selector error through: an error thrown by
    [getWorkoutEffortScore], or by [setWorkoutEffortScore] for a valid score,
    is never one that the wrappers would classify as "unrecognized
    selector". *)
Theorem selector_errors_never_escape (s : number) (w : W) (e : JsValue) :
  isValidWorkoutEffortScore s = true ->
  (outcome (getWorkoutEffortScore workout w) = Throws e ->
   unrecognizedSelector e = false)
  /\ (outcome (setWorkoutEffortScore numberToString workout s w) = Throws e ->
      unrecognizedSelector e = false).
Proof.
  intros Hs. split.
  - rewrite getWorkoutEffortScore_run.
    destruct (proxy_getWorkoutEffortScore workout w) as [[v | error] w'];
      simpl; [discriminate|].
    destruct (unrecognizedSelector error) eqn:Hsel; [discriminate|].
    intros H. injection H as <-. exact Hsel.
  - rewrite (setWorkoutEffortScore_valid _ _ _ _ Hs).
    destruct (proxy_setWorkoutEffortScore workout s w) as [[b | error] w'];
      simpl; [discriminate|].
    destruct (unrecognizedSelector error) eqn:Hsel.
    + intros H. injection H as <-. reflexivity.
    + intros H. injection H as <-. exact Hsel.
Qed.

End WrapperDiscipline.

Lemma null_exactly_for_selector_errors_witness :
  outcome (WorkoutEffort.getWorkoutEffortScore proxyWithoutEffort tt)
    = Returns None
  <-> exists pre post,
      selectorMissing
      = JsError (pre ++ "unrecognized selector" ++ post)%string.
Proof.
  exact (proj1 (@null_exactly_for_selector_errors
                  unit proxyWithoutEffort tt tt selectorMissing eq_refl)).
Defined.

Lemma selector_errors_never_escape_witness :
  WorkoutEffort.unrecognizedSelector (JsError WorkoutEffort.unsupportedMessage)
    = false.
Proof.
  exact (proj2 (@selector_errors_never_escape
                  unit (fun _ => "7"%string) proxyWithoutEffort (ofZ 7) tt
                  (JsError WorkoutEffort.unsupportedMessage) eq_refl)
               eq_refl).
Defined.

(* ---------------------------------------------------------------- *)
(** ** ios/WorkoutProxy.swift: effort scores, continued *)

Lemma lastOf_Some_iff {A} (xs : list A) (x : A) :
  lastOf xs = Some x <-> exists earlier, xs = earlier ++ [x].
Proof.
  split.
  - destruct xs as [|y ys] using rev_ind; [discriminate|].
    rewrite lastOf_snoc. intros H. injection H as <-. eauto.
  - intros [earlier ->]. apply lastOf_snoc.
Qed.

Lemma range_guard_iff (score : Double) :
  geb score (ofZ 1) && Num.leb score (ofZ 10) = true
  <-> exists q, score = Finite q /\ 1 <= q <= 10.
Proof.
  rewrite andb_true_iff. unfold geb.
  destruct score as [q | | |].
  - rewrite leb_ofZ_l, leb_ofZ_r. split.
    + intros [H1 H10]. exists q. repeat split; assumption.
    + intros (q' & Hq & H1 & H10). injection Hq as <-. split; assumption.
  - split; [intros [H _]; discriminate | intros (q & H & _); discriminate].
  - split; [intros [_ H]; discriminate | intros (q & H & _); discriminate].
  - split; [intros [H _]; discriminate | intros (q & H & _); discriminate].
Qed.

Lemma valid_score_is_in_range (s : number) :
  WorkoutEffort.isValidWorkoutEffortScore s = true ->
  geb s (ofZ 1) && Num.leb s (ofZ 10) = true.
Proof.
  unfold WorkoutEffort.isValidWorkoutEffortScore.
  rewrite !andb_true_iff. tauto.
Qed.

Section EffortCalls.
Context {S : Type}.
Variable store : HealthStore S.
Variable describe : Double -> string.

Import EffortScore.

(** The deletion loop of [setWorkoutEffortScoreInternal]. *)
Let deleteAll (existing : list HKSample)
  : Eff (St:=S) (Ev:=StoreCall) (Ex:=SwiftError) unit :=
  forEach existing
    (fun sample =>
       try_catch (call (DeleteSample sample) (delete store sample))
                 (fun _ : SwiftError => ret tt)).

Lemma deleteAll_calls (existing : list HKSample) :
  forall st, calls (deleteAll existing st) = map DeleteSample existing.
Proof.
  unfold deleteAll.
  induction existing as [|sample rest IH]; intros st; [reflexivity|].
  cbn [forEach map].
  erewrite bind_Returns.
  2:{ unfold try_catch. rewrite call_run. cbn [outcome].
      destruct (fst (delete store sample st)) as [[] | e]; reflexivity. }
  cbn [calls]. rewrite IH.
  unfold try_catch. rewrite call_run. cbn [outcome].
  destruct (fst (delete store sample st)) as [[] | e]; reflexivity.
Qed.

(** X6.  When the score is in range and the query answers, the native set
    makes these store calls and no other: the query, one deletion for each
    sample the query returned, in the order returned and whatever the
    earlier deletions answered, then the relate of the new sample.  Its
    result is that of the relate step: [true] when it succeeds, its error
    when it fails, the deletions having been made already. *)
Theorem set_deletes_each_sample_then_relates
        (workout : HKWorkout) (score : Double) (st s0 : S)
        (existing : list HKSample) :
  geb score (ofZ 1) && Num.leb score (ofZ 10) = true ->
  effortSamplesRelated store workout st = (Returns existing, s0) ->
  calls (setWorkoutEffortScoreInternal store describe workout score st)
    = QueryEffortSamples workout
      :: map DeleteSample existing
      ++ [RelateEffortSample (effortSample workout score) workout]
  /\ (outcome (setWorkoutEffortScoreInternal store describe workout score st),
      final (setWorkoutEffortScoreInternal store describe workout score st))
     = (let (related, s2) :=
          relateWorkoutEffortSample store (effortSample workout score)
            workout (final (deleteAll existing s0)) in
        (match related with
         | Returns _ => Returns true
         | Throws e => Throws e
         end, s2)).
Proof.
  intros Hrange Hquery.
  unfold setWorkoutEffortScoreInternal. rewrite Hrange.
  cbn [negb]. fold (effortSample workout score).
  pose proof (deleteAll_calls existing s0) as Hdeleted.
  unfold deleteAll in Hdeleted |- *.
  erewrite bind_Returns by (rewrite call_run, Hquery; reflexivity).
  rewrite call_run, Hquery. cbn [fst snd outcome final calls].
  erewrite bind_Returns by apply deletions_are_tolerated.
  cbn [outcome final calls]. rewrite Hdeleted.
  destruct (relateWorkoutEffortSample store (effortSample workout score)
              workout _)
    as [[[] | e] s2] eqn:Hrel.
  - erewrite bind_Returns by (rewrite call_run, Hrel; reflexivity).
    rewrite call_run, Hrel. split; reflexivity.
  - erewrite bind_Throws by (rewrite call_run, Hrel; reflexivity).
    rewrite call_run, Hrel. split; reflexivity.
Qed.

(** X7.  When the query of the native set fails, its error is the result,
    and neither a deletion nor the relate is attempted. *)
Theorem set_stops_when_the_query_fails
        (workout : HKWorkout) (score : Double) (st s0 : S) (e : SwiftError) :
  geb score (ofZ 1) && Num.leb score (ofZ 10) = true ->
  effortSamplesRelated store workout st = (Throws e, s0) ->
  setWorkoutEffortScoreInternal store describe workout score st
  = mkRun (Throws e) s0 [QueryEffortSamples workout].
Proof.
  intros Hrange Hquery.
  unfold setWorkoutEffortScoreInternal. rewrite Hrange. cbn [negb].
  erewrite bind_Throws by (rewrite call_run, Hquery; reflexivity).
  rewrite call_run, Hquery. reflexivity.
Qed.

(** X8.  The native set reaches the store exactly when the score is a
    finite number between 1 and 10: then its first act is the query;
    otherwise (NaN, an infinity, a number outside the range) it throws the
    range error and leaves the store untouched. *)
Theorem set_reaches_store_iff_in_range
        (workout : HKWorkout) (score : Double) (st : S) :
  ((exists q, score = Finite q /\ 1 <= q <= 10)
   /\ exists rest,
       calls (setWorkoutEffortScoreInternal store describe workout score st)
       = QueryEffortSamples workout :: rest)
  \/ ((~ exists q, score = Finite q /\ 1 <= q <= 10)
      /\ setWorkoutEffortScoreInternal store describe workout score st
         = mkRun (Throws (RuntimeError (outOfRangeMessage describe score)))
                 st []).
Proof.
  destruct (geb score (ofZ 1) && Num.leb score (ofZ 10)) eqn:Hrange.
  - left. split; [apply range_guard_iff; exact Hrange|].
    apply setInternal_in_range_queries. exact Hrange.
  - right. split.
    + intros Hin. apply range_guard_iff in Hin. congruence.
    + apply setInternal_out_of_range. exact Hrange.
Qed.

(** X9.  The native get makes the one query and nothing else; when the
    query answers it returns a value exactly when the last sample of the
    answer is a quantity sample, and then that sample's value: samples before
    the last are never looked at. *)
Theorem get_reads_the_last_sample_only
        (workout : HKWorkout) (st s' : S) (samples : list HKSample)
        (v : Double) :
  effortSamplesRelated store workout st = (Returns samples, s') ->
  calls (getWorkoutEffortScoreInternal store workout st)
    = [QueryEffortSamples workout]
  /\ final (getWorkoutEffortScoreInternal store workout st) = s'
  /\ (outcome (getWorkoutEffortScoreInternal store workout st)
        = Returns (Some v)
      <-> exists earlier lastSample,
          samples = earlier ++ [QuantitySample lastSample]
          /\ quantity lastSample = v)
  /\ (outcome (getWorkoutEffortScoreInternal store workout st) = Returns None
      \/ exists v', outcome (getWorkoutEffortScoreInternal store workout st)
                    = Returns (Some v')).
Proof.
  intros Hquery. unfold getWorkoutEffortScoreInternal.
  erewrite bind_Returns by (rewrite call_run, Hquery; reflexivity).
  rewrite call_run, Hquery. cbn [fst snd outcome final calls].
  destruct (lastOf samples) as [[lastSample | r | uuid]|] eqn:Hlast;
    cbn [ret outcome final calls app];
    (split; [reflexivity|]); (split; [reflexivity|]); split; eauto;
    try (split; [discriminate|];
         intros (earlier & qs & -> & _); rewrite lastOf_snoc in Hlast;
         discriminate Hlast).
  split.
  - intros H. injection H as <-.
    apply lastOf_Some_iff in Hlast. destruct Hlast as [earlier ->]. eauto.
  - intros (earlier & qs & -> & <-). rewrite lastOf_snoc in Hlast.
    injection Hlast as <-. reflexivity.
Qed.

(** In range, the run of the native set is that of its store calls. *)
Lemma setInternal_in_range_run
      (workout : HKWorkout) (score : Double) (st : S) :
  geb score (ofZ 1) && Num.leb score (ofZ 10) = true ->
  setWorkoutEffortScoreInternal store describe workout score st
  = match effortSamplesRelated store workout st with
    | (Throws e, s0) => mkRun (Throws e) s0 [QueryEffortSamples workout]
    | (Returns existing, s0) =>
        let (related, s2) :=
          relateWorkoutEffortSample store (effortSample workout score)
            workout (final (deleteAll existing s0)) in
        mkRun (match related with
               | Returns _ => Returns true
               | Throws e => Throws e
               end)
              s2
              (QueryEffortSamples workout
               :: map DeleteSample existing
               ++ [RelateEffortSample (effortSample workout score) workout])
    end.
Proof.
  intros Hrange.
  destruct (effortSamplesRelated store workout st) as [[existing | e] s0]
    eqn:Hquery.
  - unfold setWorkoutEffortScoreInternal. rewrite Hrange.
    cbn [negb]. fold (effortSample workout score).
    pose proof (deleteAll_calls existing s0) as Hdeleted.
    unfold deleteAll in Hdeleted |- *.
    erewrite bind_Returns by (rewrite call_run, Hquery; reflexivity).
    rewrite call_run, Hquery. cbn [fst snd outcome final calls].
    erewrite bind_Returns by apply deletions_are_tolerated.
    cbn [outcome final calls]. rewrite Hdeleted.
    destruct (relateWorkoutEffortSample store (effortSample workout score)
                workout _)
      as [[[] | e] s2] eqn:Hrel.
    + erewrite bind_Returns by (rewrite call_run, Hrel; reflexivity).
      rewrite call_run, Hrel. reflexivity.
    + erewrite bind_Throws by (rewrite call_run, Hrel; reflexivity).
      rewrite call_run, Hrel. reflexivity.
  - unfold setWorkoutEffortScoreInternal. rewrite Hrange. cbn [negb].
    erewrite bind_Throws by (rewrite call_run, Hquery; reflexivity).
    rewrite call_run, Hquery. reflexivity.
Qed.

(** C10.  A score in the closed range from 1 to 10 that is not an integer
    passes the native guard: [setWorkoutEffortScoreInternal] raises no
    validation error of its own but runs its store calls, the query, the
    deletions and the relate, and its result is the store's: [true] when the
    relate succeeds, otherwise the error of the query or of the relate.
    [isValidWorkoutEffortScore] is false of such a score, and the TypeScript
    wrapper rejects it without calling the native side. *)
Theorem C10_native_guard_is_range_only
        (numberToString : number -> string)
        (workout : HKWorkout) (score : Double) (st : S)
        (W : Type) (proxy : WorkoutProxy W) (w : W) :
  geb score (ofZ 1) = true ->
  Num.leb score (ofZ 10) = true ->
  isInteger score = false ->
  setWorkoutEffortScoreInternal store describe workout score st
  = match effortSamplesRelated store workout st with
    | (Throws e, s0) => mkRun (Throws e) s0 [QueryEffortSamples workout]
    | (Returns existing, s0) =>
        let (related, s2) :=
          relateWorkoutEffortSample store (effortSample workout score)
            workout (final (deleteAll existing s0)) in
        mkRun (match related with
               | Returns _ => Returns true
               | Throws e => Throws e
               end)
              s2
              (QueryEffortSamples workout
               :: map DeleteSample existing
               ++ [RelateEffortSample (effortSample workout score) workout])
    end
  /\ WorkoutEffort.isValidWorkoutEffortScore score = false
  /\ WorkoutEffort.setWorkoutEffortScore numberToString proxy score w
     = mkRun (Throws (JsError (WorkoutEffort.invalidMessage
                                 numberToString score))) w [].
Proof.
  intros Hge Hle Hint.
  assert (Hs : WorkoutEffort.isValidWorkoutEffortScore score = false)
    by (unfold WorkoutEffort.isValidWorkoutEffortScore; rewrite Hint;
        reflexivity).
  split; [|split].
  - apply setInternal_in_range_run. rewrite Hge, Hle. reflexivity.
  - exact Hs.
  - apply setWorkoutEffortScore_invalid. exact Hs.
Qed.

End EffortCalls.

(** C10 at the score 7.5, on the in-memory store: the native set queries,
    relates the sample of value 7.5 and returns [true]; the wrapper refuses
    the score. *)
Lemma C10_witness :
  (outcome (EffortScore.setWorkoutEffortScoreInternal
              MemoryStore.healthStore (fun _ => "7.5"%string)
              morningRun sevenAndAHalf undeletable)
     = Returns true
   /\ calls (EffortScore.setWorkoutEffortScoreInternal
               MemoryStore.healthStore (fun _ => "7.5"%string)
               morningRun sevenAndAHalf undeletable)
      = [QueryEffortSamples morningRun;
         RelateEffortSample (effortSample morningRun sevenAndAHalf)
                            morningRun])
  /\ WorkoutEffort.isValidWorkoutEffortScore sevenAndAHalf = false
  /\ WorkoutEffort.setWorkoutEffortScore
       (fun _ => "7.5"%string) proxyWithoutEffort sevenAndAHalf tt
     = mkRun (Throws (JsError (WorkoutEffort.invalidMessage
                                 (fun _ => "7.5"%string) sevenAndAHalf)))
             tt [].
Proof.
  destruct (@C10_native_guard_is_range_only
              MemoryStore.t MemoryStore.healthStore (fun _ => "7.5"%string)
              (fun _ => "7.5"%string) morningRun sevenAndAHalf undeletable
              unit proxyWithoutEffort tt eq_refl eq_refl eq_refl)
    as (Hrun & Hinvalid & Hwrapper).
  split; [|split; [exact Hinvalid | exact Hwrapper]].
  split; [exact (f_equal (@outcome _ _ _ _) Hrun)
         | exact (f_equal (@calls _ _ _ _) Hrun)].
Defined.

Section Composition.
Context {S : Type}.
Variable store : HealthStore S.
Variable describe : Double -> string.
Variable bridge : SwiftError -> JsValue.
Variable numberToString : number -> string.

(** X10.  Through the wrapper the range check of the native side never
    fires: a score that [setWorkoutEffortScore] accepts is in the native
    range, so the store is queried; a score it refuses leaves the store and
    its call log as they were. *)
Theorem wrapper_validation_covers_native_guard
        (workout : HKWorkout) (s : number) (st : S) (log : list StoreCall) :
  let run := WorkoutEffort.setWorkoutEffortScore numberToString
               (EffortScore.hybridWorkoutProxy store describe bridge workout)
               s (st, log) in
  if WorkoutEffort.isValidWorkoutEffortScore s then
    exists rest, snd (final run) = log ++ QueryEffortSamples workout :: rest
  else final run = (st, log).
Proof.
  cbv zeta.
  destruct (WorkoutEffort.isValidWorkoutEffortScore s) eqn:Hs.
  - rewrite (setWorkoutEffortScore_valid _ _ _ _ Hs).
    destruct (setInternal_in_range_queries store describe workout s st
                (valid_score_is_in_range _ Hs)) as [rest Hcalls].
    exists rest. simpl. rewrite <- Hcalls.
    destruct (outcome (EffortScore.setWorkoutEffortScoreInternal
                         store describe workout s st)); reflexivity.
  - rewrite (setWorkoutEffortScore_invalid _ _ _ _ Hs). reflexivity.
Qed.

End Composition.

(* ---------------------------------------------------------------- *)
(** ** ios/WorkoutProxy.swift: workout routes, continued *)

Section RouteQueryProtocol.
Import Routes.

Lemma stage_resume {A} (k : Continuation A) (r : Outcome SwiftError A) :
  stage (resume k r) = Nat.min 2 (stage k + 1).
Proof. destruct k; reflexivity. Qed.

Lemma locationsHandler_stage (cb : RouteCallback)
      (st : list CLLocation * Continuation (list CLLocation)) :
  stage (snd (locationsHandler st cb))
  = Nat.min 2 (stage (snd st) + (if resumes cb then 1 else 0)).
Proof.
  destruct st as [allLocations k]. unfold locationsHandler, resumes.
  destruct (errorOrNil cb) as [e|]; [apply stage_resume|].
  destruct (locationsOrNil cb) as [batch|]; [|apply stage_resume].
  destruct (done cb); [apply stage_resume|].
  simpl. destruct k; reflexivity.
Qed.

Lemma fold_stage (callbacks : list RouteCallback) :
  forall st,
    stage (snd (fold_left locationsHandler callbacks st))
    = Nat.min 2 (stage (snd st) + length (filter resumes callbacks)).
Proof.
  induction callbacks as [|cb rest IH]; intros st.
  - simpl. rewrite Nat.add_0_r. destruct (snd st); reflexivity.
  - simpl fold_left. rewrite IH, locationsHandler_stage. simpl filter.
    destruct (resumes cb); simpl length; lia.
Qed.

Variable store : RouteStore.

Lemma getRouteLocations_never_throws (route : HKWorkoutRoute) (e : SwiftError) :
  getRouteLocations store route <> Error e.
Proof.
  unfold getRouteLocations.
  destruct (routeLocationsContinuation (executeRouteQuery store route))
    as [| [locs | bad] | first]; discriminate.
Qed.

(** X11.  [getRouteLocations] never throws.  It stays suspended exactly when
    no callback resumes the continuation (none carries an error, a missing
    batch or [done]), and it traps on continuation misuse exactly when two
    or more callbacks do. *)
Theorem route_query_outcome_by_resuming_callbacks (route : HKWorkoutRoute) :
  (forall e, getRouteLocations store route <> Error e)
  /\ (getRouteLocations store route = Suspended
      <-> filter resumes (executeRouteQuery store route) = [])
  /\ (getRouteLocations store route = Trap ContinuationMisuse
      <-> (2 <= length (filter resumes (executeRouteQuery store route)))%nat).
Proof.
  unfold getRouteLocations, routeLocationsContinuation.
  pose proof (fold_stage (executeRouteQuery store route) ([], Pending))
    as Hstage.
  rewrite <- length_zero_iff_nil.
  cbn [snd] in Hstage. change (stage (@Pending (list CLLocation))) with 0%nat in Hstage.
  destruct (snd (fold_left locationsHandler (executeRouteQuery store route)
                           ([], Pending))) as [| [locs | e] | first];
    cbn [stage] in Hstage; cbn [awaitContinuation forceTry];
    (split; [discriminate|]); split; split;
    first [discriminate | reflexivity | lia | (intros _; lia)].
Qed.

(** X12.  The first [done] settles the result: batches that the store
    delivers after it are appended to the handler's variable but are not part
    of what [getRouteLocations] returns. *)
Theorem batches_after_done_are_dropped
        (route : HKWorkoutRoute) (before after : list (list CLLocation))
        (doneBatch : list CLLocation) :
  executeRouteQuery store route
    = undone before ++ [delivery doneBatch true] ++ undone after ->
  getRouteLocations store route = Done (concat before ++ doneBatch)
  /\ fst (fold_left locationsHandler (executeRouteQuery store route)
                    ([], Pending))
     = concat before ++ doneBatch ++ concat after.
Proof.
  intros Hexec. unfold getRouteLocations, routeLocationsContinuation.
  rewrite Hexec, !fold_left_app, undone_batches_accumulate.
  cbn [fold_left locationsHandler delivery errorOrNil locationsOrNil done
       resume app].
  rewrite undone_batches_accumulate. simpl.
  split; [reflexivity | rewrite <- app_assoc; reflexivity].
Qed.

(** X13.  A callback that carries neither an error nor a batch, after any
    number of batches, makes [getRouteLocations] trap: the handler throws
    "Empty response" into the continuation and [try!] meets it. *)
Theorem missing_batch_traps
        (route : HKWorkoutRoute) (before : list (list CLLocation))
        (isLast : bool) :
  executeRouteQuery store route
    = undone before
      ++ [ {| locationsOrNil := None; done := isLast; errorOrNil := None |} ] ->
  getRouteLocations store route
  = Trap (ForcedTryFailed (RuntimeError "Empty response")).
Proof.
  intros Hexec. unfold getRouteLocations, routeLocationsContinuation.
  rewrite Hexec, fold_left_app, undone_batches_accumulate. reflexivity.
Qed.

Lemma routesHandler_misused (callbacks : list AnchoredCallback) :
  forall first,
    fold_left routesHandler callbacks (Misused first) = Misused first.
Proof.
  induction callbacks as [|cb rest IH]; intros first; [reflexivity|].
  simpl. unfold routesHandler at 2.
  destruct (cb_error cb); [|destruct (cb_samples cb)]; apply IH.
Qed.

Lemma routesHandler_resumed (callbacks : list AnchoredCallback) :
  forall r,
    callbacks <> [] ->
    fold_left routesHandler callbacks (Resumed r) = Misused r.
Proof.
  destruct callbacks as [|cb rest]; intros r Hne; [congruence|].
  simpl. unfold routesHandler at 2.
  destruct (cb_error cb); [|destruct (cb_samples cb)];
    apply routesHandler_misused.
Qed.

Lemma getWorkoutRoutesInternal_by_callbacks (workout : HKWorkout) :
  getWorkoutRoutesInternal store workout
  = match executeAnchored store workout with
    | [] => Suspended
    | [cb] =>
        match cb_error cb, cb_samples cb with
        | Some e, _ => Error e
        | None, None => Error (RuntimeError "Empty response")
        | None, Some samples => Done (asWorkoutRoutes samples)
        end
    | _ :: _ :: _ => Trap ContinuationMisuse
    end.
Proof.
  unfold getWorkoutRoutesInternal.
  destruct (executeAnchored store workout) as [|cb [|cb' rest]].
  - reflexivity.
  - simpl. unfold routesHandler.
    destruct (cb_error cb); [reflexivity|].
    destruct (cb_samples cb) as [samples|]; [|reflexivity].
    simpl. destruct (asWorkoutRoutes samples); reflexivity.
  - cbn [fold_left].
    assert (Hfirst : exists r, routesHandler Pending cb = Resumed r).
    { unfold routesHandler.
      destruct (cb_error cb); [|destruct (cb_samples cb)]; simpl; eauto. }
    destruct Hfirst as [r ->].
    change (fold_left routesHandler rest (routesHandler (Resumed r) cb'))
      with (fold_left routesHandler (cb' :: rest) (Resumed r)).
    rewrite routesHandler_resumed by discriminate. reflexivity.
Qed.

(** X14.  [getWorkoutRoutesInternal] by the number of times the store invokes
    the results handler: it stays suspended exactly when the handler is never
    invoked, and traps on continuation misuse exactly when it is invoked more
    than once; and when the single invocation carries an error, the error is
    thrown even if samples came with it. *)
Theorem anchored_query_outcome_by_callbacks
        (workout : HKWorkout) (samples : option (list HKSample))
        (e : SwiftError) :
  (getWorkoutRoutesInternal store workout = Suspended
   <-> executeAnchored store workout = [])
  /\ (getWorkoutRoutesInternal store workout = Trap ContinuationMisuse
      <-> (2 <= length (executeAnchored store workout))%nat)
  /\ (executeAnchored store workout
        = [ {| cb_samples := samples; cb_error := Some e |} ] ->
      getWorkoutRoutesInternal store workout = Error e).
Proof.
  rewrite getWorkoutRoutesInternal_by_callbacks.
  destruct (executeAnchored store workout) as [|cb [|cb' rest]].
  - repeat split; try discriminate; simpl; lia.
  - split; [|split].
    + split; [|discriminate].
      destruct (cb_error cb); [discriminate|].
      destruct (cb_samples cb); discriminate.
    + split; [|simpl; lia].
      destruct (cb_error cb); [discriminate|].
      destruct (cb_samples cb); discriminate.
    + intros H. injection H as ->. reflexivity.
  - repeat split; try discriminate; simpl; lia.
Qed.

End RouteQueryProtocol.

Lemma asWorkoutRoutes_of_routes (routes : list HKWorkoutRoute) :
  Routes.asWorkoutRoutes (map WorkoutRouteSample routes) = Some routes.
Proof.
  induction routes as [|route rest IH]; [reflexivity|].
  simpl. rewrite IH. reflexivity.
Qed.

(** X15.  The cast of the sample list succeeds exactly on the lists made of
    route samples only, and then gives back those routes in order. *)
Theorem cast_inverts_route_samples
        (samples : list HKSample) (routes : list HKWorkoutRoute) :
  Routes.asWorkoutRoutes samples = Some routes
  <-> samples = map WorkoutRouteSample routes.
Proof.
  revert routes. induction samples as [|sample rest IH]; intros routes.
  - simpl. split.
    + intros H. injection H as <-. reflexivity.
    + destruct routes; [reflexivity | discriminate].
  - destruct sample as [s | r | uuid]; simpl;
      try (split; [discriminate | destruct routes; discriminate]).
    destruct (Routes.asWorkoutRoutes rest) as [others|] eqn:Hrest.
    + split.
      * intros H. injection H as <-. simpl. f_equal. apply IH. reflexivity.
      * destruct routes as [|r' routes']; [discriminate|].
        simpl. intros H. injection H as -> Htail.
        apply IH in Htail. congruence.
    + split; [discriminate|].
      destruct routes as [|r' routes']; [discriminate|].
      simpl. intros H. injection H as _ Htail.
      apply IH in Htail. discriminate Htail.
Qed.

Section RouteSerialization.
Import Routes.
Variable store : RouteStore.
Variable distance_from : CLLocation -> CLLocation -> Double.
Variable AnyMap : Type.
Variable serializeMetadata : option Metadata -> AnyMap.
Variable getString : AnyMap -> string -> Completion (option string).
Variable getDouble : AnyMap -> string -> Completion (option Double).

Let serializeFrom :=
  serializeRoutes store distance_from serializeMetadata getString getDouble.
Let routesOf :=
  getSerializedWorkoutLocations
    store distance_from serializeMetadata getString getDouble.

Let carries := carriesMetadata serializeMetadata getString getDouble.

Lemma serializeRoutes_metadata (routes : list HKWorkoutRoute) :
  forall allRoutes out,
    serializeFrom routes allRoutes = Done out ->
    exists added, out = allRoutes ++ added
                  /\ Forall2 carries routes added.
Proof.
  unfold serializeFrom.
  induction routes as [|route rest IH]; intros allRoutes out Hrun.
  - injection Hrun as <-. exists []. rewrite app_nil_r. split; constructor.
  - simpl in Hrun.
    destruct (getRouteLocations store route) as [locs | | |];
      try discriminate Hrun.
    simpl in Hrun. rewrite serializeLocations_total in Hrun. simpl in Hrun.
    destruct (getString _ _) as [syncIdentifier | | |] eqn:Hid;
      try discriminate Hrun. simpl in Hrun.
    destruct (getDouble _ _) as [syncVersion | | |] eqn:Hversion;
      try discriminate Hrun. simpl in Hrun.
    destruct (IH _ _ Hrun) as (added & -> & Hrest).
    eexists (_ :: added). rewrite <- app_assoc. split; [reflexivity|].
    constructor; [|exact Hrest]. split; assumption.
Qed.

(** X16.  The routes returned are, one for one and in the order of the
    store's answer, the route samples of the workout, each with the sync
    identifier and sync version read from its own metadata. *)
Theorem routes_keep_order_and_metadata
        (workout : HKWorkout) (out : list WorkoutRoute) :
  routesOf workout = Done out ->
  exists routes,
    getWorkoutRoutesInternal store workout = Done (Some routes)
    /\ length out = length routes
    /\ Forall2 carries routes out.
Proof.
  unfold routesOf, getSerializedWorkoutLocations. intros Hrun.
  destruct (getWorkoutRoutesInternal store workout)
    as [[routes|] | | |]; try discriminate Hrun.
  simpl in Hrun. exists routes. split; [reflexivity|].
  destruct (serializeRoutes_metadata _ _ Hrun) as (added & -> & Hall).
  split; [symmetry; exact (Forall2_length Hall) | exact Hall].
Qed.

(** Serializing a list of routes is serializing its first part and going on
    from there with the rest. *)
Lemma serializeRoutes_app (first rest : list HKWorkoutRoute) :
  forall allRoutes,
    serializeFrom (first ++ rest) allRoutes
    = (soFar <~ serializeFrom first allRoutes ;; serializeFrom rest soFar).
Proof.
  unfold serializeFrom.
  induction first as [|route more IH]; intros allRoutes; [reflexivity|].
  simpl.
  destruct (getRouteLocations store route); try reflexivity. simpl.
  destruct (serializeLocations distance_from a); try reflexivity. simpl.
  destruct (getString _ _); try reflexivity. simpl.
  destruct (getDouble _ _); try reflexivity. simpl.
  apply IH.
Qed.

(** X17.  No partial list: when the routes before some route have been
    serialized and the location query of that route traps or never
    completes, the whole operation traps or never completes, whatever the
    routes after it would give. *)
Theorem failing_route_fails_the_whole_fetch
        (workout : HKWorkout) (before after : list HKWorkoutRoute)
        (route : HKWorkoutRoute) (soFar : list WorkoutRoute) :
  executeAnchored store workout
    = answers (Some (map WorkoutRouteSample (before ++ route :: after))) ->
  serializeFrom before [] = Done soFar ->
  match getRouteLocations store route with
  | Trap reason => routesOf workout = Trap reason
  | Suspended => routesOf workout = Suspended
  | _ => True
  end.
Proof.
  intros Hexec Hbefore.
  assert (Hroutes : routesOf workout
                    = serializeFrom (before ++ route :: after) []).
  { unfold routesOf, getSerializedWorkoutLocations.
    rewrite (getWorkoutRoutesInternal_answer _ _ Hexec).
    rewrite asWorkoutRoutes_of_routes. reflexivity. }
  rewrite Hroutes, serializeRoutes_app, Hbefore.
  unfold serializeFrom. simpl.
  destruct (getRouteLocations store route); auto.
Qed.

(** X18.  When the metadata helpers do not throw, the only errors that
    [getSerializedWorkoutLocations] throws are the error of the anchored
    query's single callback, "Empty response" for a callback without error
    and without samples, and "Unexpected empty response" for a sample list
    that is not made of routes only.  An error of a route's location query
    is never among them. *)
Theorem errors_thrown_by_route_fetch (workout : HKWorkout) (e : SwiftError) :
  (forall m key err, getString m key <> Error err) ->
  (forall m key err, getDouble m key <> Error err) ->
  routesOf workout = Error e ->
  exists cb,
    executeAnchored store workout = [cb]
    /\ (cb_error cb = Some e
        \/ (cb_error cb = None /\ cb_samples cb = None
            /\ e = RuntimeError "Empty response")
        \/ (cb_error cb = None
            /\ (exists samples, cb_samples cb = Some samples
                                /\ asWorkoutRoutes samples = None)
            /\ e = RuntimeError "Unexpected empty response")).
Proof.
  intros HgetString HgetDouble.
  assert (Hnever : forall routes allRoutes err,
             serializeFrom routes allRoutes <> Error err).
  { unfold serializeFrom.
    induction routes as [|route rest IH]; intros allRoutes err;
      [discriminate|].
    simpl.
    destruct (getRouteLocations store route) as [locs | bad | |] eqn:Hloc;
      try discriminate;
      [|exfalso; exact (getRouteLocations_never_throws store route Hloc)].
    simpl. rewrite serializeLocations_total. simpl.
    destruct (getString _ _) as [syncIdentifier | bad | |] eqn:Hid;
      try discriminate; [|exfalso; exact (HgetString _ _ _ Hid)].
    simpl.
    destruct (getDouble _ _) as [syncVersion | bad | |] eqn:Hversion;
      try discriminate; [|exfalso; exact (HgetDouble _ _ _ Hversion)].
    simpl. apply IH. }
  unfold routesOf, getSerializedWorkoutLocations.
  rewrite getWorkoutRoutesInternal_by_callbacks.
  destruct (executeAnchored store workout) as [|cb [|cb' rest]];
    try discriminate.
  intros Hrun. exists cb. split; [reflexivity|].
  destruct (cb_error cb) as [err|].
  - left. simpl in Hrun. congruence.
  - right. destruct (cb_samples cb) as [samples|].
    + right. simpl in Hrun.
      destruct (asWorkoutRoutes samples) as [routes|] eqn:Hcast.
      * exfalso. exact (Hnever _ _ _ Hrun).
      * injection Hrun as <-. repeat split. exists samples.
        split; [reflexivity | exact Hcast].
    + left. simpl in Hrun. injection Hrun as <-. repeat split.
Qed.

End RouteSerialization.

(* ---------------------------------------------------------------- *)
(** ** ios/WorkoutProxy.swift: workout plans, activity type, events *)

Lemma available_iff (platform : PlatformVersion) (maj mnr : nat) :
  available platform maj mnr = true <-> ~ version_lt platform maj mnr.
Proof.
  unfold available, version_lt.
  rewrite orb_true_iff, andb_true_iff, Nat.ltb_lt, Nat.eqb_eq, Nat.leb_le.
  lia.
Qed.

Lemma toInt32_fits (z : Z) :
  (-2147483648 <= z <= 2147483647)%Z -> toInt32 z = inr z.
Proof.
  intros Hz. unfold toInt32.
  destruct (Z.leb_spec (-2147483648) z), (Z.leb_spec z 2147483647);
    try lia; reflexivity.
Qed.

Lemma toInt32_overflows (z : Z) :
  ~ (-2147483648 <= z <= 2147483647)%Z -> toInt32 z = inl Int32Overflow.
Proof.
  intros Hz. unfold toInt32.
  destruct (Z.leb_spec (-2147483648) z), (Z.leb_spec z 2147483647);
    try lia; reflexivity.
Qed.

Section PlanProperties.
Import Plans.
Variable WorkoutActivityType : Type.
Variable activityOfRawValue : Z -> option WorkoutActivityType.
Variable other : WorkoutActivityType.
Variable workoutPlanOf : HKWorkout -> Outcome SwiftError (option HKWorkoutPlan).
Variable activityRawValueOf : HKWorkout -> Z.

(** X19.  Below iOS 17.0 [getWorkoutPlan] throws its availability error
    whatever the workout's plan is; from 17.0 on it is
    [getWorkoutPlanInternal]. *)
Theorem workout_plan_needs_ios_17
        (platform : PlatformVersion) (workout : HKWorkout) :
  (version_lt platform 17 0
   /\ getWorkoutPlan activityOfRawValue workoutPlanOf platform workout
      = inr (Throws (RuntimeError
                       "Workout plans are only available on iOS 17.0 or later")))
  \/ (~ version_lt platform 17 0
      /\ getWorkoutPlan activityOfRawValue workoutPlanOf platform workout
         = getWorkoutPlanInternal activityOfRawValue workoutPlanOf workout).
Proof.
  unfold getWorkoutPlan.
  destruct (available platform 17 0) eqn:Havailable.
  - right. split; [apply available_iff; exact Havailable | reflexivity].
  - left. split; [|reflexivity].
    destruct (Nat.lt_ge_cases (major platform) 17) as [Hlt | Hge];
      [left; exact Hlt|].
    exfalso. assert (Hyes : available platform 17 0 = true)
      by (apply available_iff; unfold version_lt; lia).
    congruence.
Qed.

(** X20.  For an activity whose raw value the package does not know, the
    property [workoutActivityType] answers [other], but
    [getWorkoutPlanInternal], given a plan with that activity, force-unwraps
    [nil] and crashes. *)
Theorem unknown_activity_crashes_the_plan_only
        (workout : HKWorkout) (plan : HKWorkoutPlan) :
  workoutPlanOf workout = Returns (Some plan) ->
  plan_activityRawValue plan = activityRawValueOf workout ->
  (-2147483648 <= activityRawValueOf workout <= 2147483647)%Z ->
  activityOfRawValue (activityRawValueOf workout) = None ->
  workoutActivityType activityOfRawValue other activityRawValueOf workout
    = inr other
  /\ getWorkoutPlanInternal activityOfRawValue workoutPlanOf workout
     = inl UnwrappedNil.
Proof.
  intros Hplan Hraw Hfits Hunknown.
  unfold workoutActivityType, getWorkoutPlanInternal.
  rewrite Hplan, Hraw, (toInt32_fits Hfits), Hunknown. split; reflexivity.
Qed.

(** X21.  A plan returned by [getWorkoutPlanInternal] has the identifier of
    the workout's plan and the activity type that its raw value designates;
    and the function returns [nil] only when the workout has no plan. *)
Theorem returned_plan_is_the_workouts_plan
        (workout : HKWorkout)
        (result : option (WorkoutPlan WorkoutActivityType)) :
  getWorkoutPlanInternal activityOfRawValue workoutPlanOf workout
    = inr (Returns result) ->
  match result with
  | Some returned =>
      exists plan,
        workoutPlanOf workout = Returns (Some plan)
        /\ id returned = plan_uuidString plan
        /\ activityOfRawValue (plan_activityRawValue plan)
           = Some (activityType returned)
  | None => workoutPlanOf workout = Returns None
  end.
Proof.
  unfold getWorkoutPlanInternal.
  destruct (workoutPlanOf workout) as [[plan|] | e]; try discriminate.
  - unfold toInt32.
    destruct ((-2147483648 <=? plan_activityRawValue plan)
              && (plan_activityRawValue plan <=? 2147483647))%Z;
      [|discriminate].
    destruct (activityOfRawValue (plan_activityRawValue plan)) as [activity|]
      eqn:Hknown; [|discriminate].
    intros H. injection H as <-. exists plan. repeat split. exact Hknown.
  - intros H. injection H as <-. reflexivity.
Qed.

End PlanProperties.

Section EventProperties.
Import Accessors.
Variable WorkoutEventType : Type.
Variable eventTypeOfRawValue : Z -> option WorkoutEventType.
Variable workoutEventsOf : HKWorkout -> option (list HKWorkoutEvent).

Lemma compactMap_serializeEvent (hkEvents : list HKWorkoutEvent) :
  Forall (fun event => fitsInt32 (event_typeRawValue event)) hkEvents ->
  exists out,
    compactMap (serializeEvent eventTypeOfRawValue) hkEvents = inr out
    /\ Forall2 (serializes eventTypeOfRawValue)
               (filter (knownEvent eventTypeOfRawValue) hkEvents) out.
Proof.
  induction 1 as [|event rest Hfits _ IH].
  - exists []. split; [reflexivity | constructor].
  - destruct IH as (out & Hrest & Hall). cbn [compactMap filter].
    unfold serializeEvent at 1, knownEvent at 1.
    rewrite (toInt32_fits Hfits), Hrest.
    destruct (eventTypeOfRawValue (event_typeRawValue event)) as [type|]
      eqn:Hknown.
    + eexists. split; [reflexivity|]. constructor; [|exact Hall].
      repeat split. exact Hknown.
    + exists out. split; [reflexivity | exact Hall].
Qed.

(** X22.  When every event's raw type fits in 32 bits, [events] returns the
    events whose type the package knows, in their order, each with its type
    and its interval, and silently leaves out the others; the result is
    [nil] only for a workout without event list. *)
Theorem events_of_known_type_are_kept
        (workout : HKWorkout) (hkEvents : list HKWorkoutEvent) :
  workoutEventsOf workout = Some hkEvents ->
  Forall (fun event => fitsInt32 (event_typeRawValue event)) hkEvents ->
  exists out,
    events eventTypeOfRawValue workoutEventsOf workout = inr (Some out)
    /\ Forall2 (serializes eventTypeOfRawValue)
               (filter (knownEvent eventTypeOfRawValue) hkEvents) out.
Proof.
  intros Hevents Hfit. unfold events. rewrite Hevents.
  destruct (compactMap_serializeEvent Hfit) as (out & -> & Hall).
  exists out. split; [reflexivity | exact Hall].
Qed.

(** X23.  One event whose raw type does not fit in 32 bits makes [events]
    crash, whatever the other events are. *)
Theorem event_type_overflow_crashes
        (workout : HKWorkout) (hkEvents : list HKWorkoutEvent) :
  workoutEventsOf workout = Some hkEvents ->
  Exists (fun event => ~ fitsInt32 (event_typeRawValue event)) hkEvents ->
  events eventTypeOfRawValue workoutEventsOf workout = inl Int32Overflow.
Proof.
  intros Hevents Hbad. unfold events. rewrite Hevents.
  assert (Hcrash : compactMap (serializeEvent eventTypeOfRawValue) hkEvents
                   = inl Int32Overflow).
  { clear Hevents.
    induction Hbad as [event rest Hover | event rest _ IH]; cbn [compactMap].
    - unfold serializeEvent at 1. rewrite (toInt32_overflows Hover).
      reflexivity.
    - rewrite IH. unfold serializeEvent at 1, toInt32.
      destruct ((-2147483648 <=? event_typeRawValue event)
                && (event_typeRawValue event <=? 2147483647))%Z;
        [|reflexivity].
      destruct (eventTypeOfRawValue (event_typeRawValue event)); reflexivity. }
  rewrite Hcrash. reflexivity.
Qed.

End EventProperties.

(* ---------------------------------------------------------------- *)
(** ** ios/WorkoutProxy.swift: saving a route *)

Section SaveRouteProperties.
Import SaveRoute.
Context {B : Type}.
Variable routeBuilder : RouteBuilder B.
Variable LocationForSaving : Type.
Variable mapLocations : list LocationForSaving -> list CLLocation.

(** X24.  [saveWorkoutRouteInternal] always hands the mapped locations to
    the builder first, also when there are none.  When the insertion fails
    it throws the insertion's error and does not ask the builder to finish;
    when the insertion succeeds it asks the builder to finish the route for
    the workout, and completes with [true] when that succeeds and throws
    that step's error when it fails.  The builder is left as the last step
    attempted left it. *)
Theorem save_route_inserts_then_finishes
        (workout : HKWorkout) (locations : list LocationForSaving) (b : B) :
  saveWorkoutRouteInternal routeBuilder mapLocations workout locations b
  = let (inserting, b1) :=
      insertRouteData routeBuilder (mapLocations locations) b in
    match inserting with
    | Throws e =>
        (Error e, b1, [InsertRouteData (mapLocations locations)])
    | Returns _ =>
        let (finishing, b2) := finishRoute routeBuilder workout b1 in
        (match finishing with
         | Returns _ => Done true
         | Throws e => Error e
         end,
         b2,
         [InsertRouteData (mapLocations locations); FinishRoute workout])
    end.
Proof.
  unfold saveWorkoutRouteInternal, saveTask.
  destruct (insertRouteData routeBuilder (mapLocations locations) b)
    as [[[] | e] b1] eqn:Hinsert.
  - erewrite bind_Returns by (rewrite call_run, Hinsert; reflexivity).
    rewrite call_run, Hinsert. cbn [fst snd outcome final calls].
    destruct (finishRoute routeBuilder workout b1) as [[[] | e] b2] eqn:Hfinish.
    + erewrite bind_Returns by (rewrite call_run, Hfinish; reflexivity).
      rewrite call_run, Hfinish. reflexivity.
    + erewrite bind_Throws by (rewrite call_run, Hfinish; reflexivity).
      rewrite call_run, Hfinish. reflexivity.
  - erewrite bind_Throws by (rewrite call_run, Hinsert; reflexivity).
    rewrite call_run, Hinsert. reflexivity.
Qed.

End SaveRouteProperties.

(* ---------------------------------------------------------------- *)
(** ** examples/WorkoutEffortExample.tsx *)

(** X25.  The buttons of the example are exactly the valid scores: every
    button's score is accepted by [isValidWorkoutEffortScore], and every
    number it accepts is the score of a button. *)
Theorem buttons_are_the_valid_scores (s : number) :
  WorkoutEffort.isValidWorkoutEffortScore s = true
  <-> exists button, In button Example.scores /\ same s button.
Proof.
  rewrite isValidWorkoutEffortScore_iff. unfold integerFrom1To10. split.
  - intros (z & Hz & Hrange). exists (ofZ z). split; [|exact Hz].
    assert (Hcases : (z = 1 \/ z = 2 \/ z = 3 \/ z = 4 \/ z = 5 \/ z = 6
                      \/ z = 7 \/ z = 8 \/ z = 9 \/ z = 10)%Z) by lia.
    unfold Example.scores.
    destruct Hcases as [-> | [-> | [-> | [-> | [-> | [-> | [-> | [-> | [-> | ->]]]]]]]]];
      simpl; tauto.
  - intros (button & Hin & Hsame). unfold Example.scores in Hin. simpl in Hin.
    destruct Hin as [<- | [<- | [<- | [<- | [<- | [<- | [<- | [<- | [<- | [<- | []]]]]]]]]]];
      eexists; (split; [exact Hsame | lia]).
Qed.

Section ExampleHandler.
Context {W : Type}.
Variable numberToString : number -> string.

Import Example.

(** X26.  On a platform without the effort-score selector, pressing a button
    of the example ends in the "iOS Version" alert: the error that
    [setWorkoutEffortScore] throws is the one the handler looks for.  The
    score shown is left as it was and the loading flag is cleared. *)
Theorem example_reports_the_unsupported_platform
        (c : Component W) (selected : WorkoutProxy W) (score : number)
        (w w' : W) (error : JsValue) :
  workout c = Some selected ->
  WorkoutEffort.isValidWorkoutEffortScore score = true ->
  proxy_setWorkoutEffortScore selected score w = (Throws error, w') ->
  WorkoutEffort.unrecognizedSelector error = true ->
  setWorkoutEffort numberToString score c w
  = {| component := {| workout := workout c;
                       effortScore := effortScore c;
                       loading := false |};
       native := w';
       shown := [ConsoleError "Failed to set effort score:"
                              (JsError WorkoutEffort.unsupportedMessage);
                 AlertShown "iOS Version"
                            "Workout effort scores require iOS 18 or later"];
       nativeCalls := [CallSetWorkoutEffortScore score] |}.
Proof.
  intros Hselected Hvalid Hnative Hselector.
  unfold setWorkoutEffort. rewrite Hselected, Hvalid. cbn [negb].
  rewrite (setWorkoutEffortScore_valid _ _ _ _ Hvalid), Hnative, Hselector.
  reflexivity.
Qed.

(** X27.  When the set succeeds, the example records the score, clears the
    loading flag and shows one "Success" alert whose text carries the
    description of the score, never the word "undefined". *)
Theorem example_success_shows_a_description
        (c : Component W) (selected : WorkoutProxy W) (score : number)
        (w w' : W) (b : bool) :
  workout c = Some selected ->
  WorkoutEffort.isValidWorkoutEffortScore score = true ->
  proxy_setWorkoutEffortScore selected score w = (Returns b, w') ->
  exists description,
    WorkoutEffort.getWorkoutEffortDescription score = Some description
    /\ setWorkoutEffort numberToString score c w
       = {| component := {| workout := workout c;
                            effortScore := Some score;
                            loading := false |};
            native := w';
            shown := [AlertShown "Success"
                        ("Workout effort set to " ++ numberToString score
                           ++ " (" ++ description ++ ")")%string];
            nativeCalls := [CallSetWorkoutEffortScore score] |}.
Proof.
  intros Hselected Hvalid Hnative.
  destruct (valid_score_has_description score Hvalid)
    as [description Hdescription].
  exists description. split; [exact Hdescription|].
  unfold setWorkoutEffort, successMessage.
  rewrite Hselected, Hvalid, Hdescription. cbn [negb].
  rewrite (setWorkoutEffortScore_valid _ _ _ _ Hvalid), Hnative.
  reflexivity.
Qed.

(** X28.  The handler of the example reaches the native side only with a
    workout selected and a valid score, and then with the one set call for
    that score; otherwise the component and the native side are left as they
    were. *)
Theorem example_guards_the_native_call
        (c : Component W) (score : number) (w : W) :
  (exists selected,
      workout c = Some selected
      /\ WorkoutEffort.isValidWorkoutEffortScore score = true
      /\ nativeCalls (setWorkoutEffort numberToString score c w)
         = [CallSetWorkoutEffortScore score])
  \/ (nativeCalls (setWorkoutEffort numberToString score c w) = []
      /\ component (setWorkoutEffort numberToString score c w) = c
      /\ native (setWorkoutEffort numberToString score c w) = w).
Proof.
  unfold setWorkoutEffort.
  destruct (workout c) as [selected|]; [|right; repeat split].
  destruct (WorkoutEffort.isValidWorkoutEffortScore score) eqn:Hvalid;
    cbn [negb]; [|right; repeat split].
  left. exists selected. repeat split.
  rewrite (setWorkoutEffortScore_valid _ _ _ _ Hvalid).
  destruct (proxy_setWorkoutEffortScore selected score w) as [[b | error] w'];
    [reflexivity|].
  destruct (WorkoutEffort.unrecognizedSelector error); reflexivity.
Qed.

End ExampleHandler.

(* ---------------------------------------------------------------- *)
(** ** The properties above on concrete inputs *)

Lemma set_deletes_each_sample_then_relates_witness :
  calls (EffortScore.setWorkoutEffortScoreInternal
           MemoryStore.healthStore (fun _ => "?"%string) morningRun (ofZ 9)
           (fst (afterThree MemoryStore.healthStore)))
  = [QueryEffortSamples morningRun;
     DeleteSample (QuantitySample (effortSample morningRun (ofZ 3)));
     RelateEffortSample (effortSample morningRun (ofZ 9)) morningRun].
Proof.
  exact (proj1 (@set_deletes_each_sample_then_relates
                  MemoryStore.t MemoryStore.healthStore (fun _ => "?"%string)
                  morningRun (ofZ 9) (fst (afterThree MemoryStore.healthStore))
                  (fst (afterThree MemoryStore.healthStore))
                  [QuantitySample (effortSample morningRun (ofZ 3))]
                  eq_refl eq_refl)).
Defined.

Lemma set_stops_when_the_query_fails_witness :
  EffortScore.setWorkoutEffortScoreInternal
    offlineStore (fun _ => "?"%string) morningRun (ofZ 5) undeletable
  = mkRun (Throws offline) undeletable [QueryEffortSamples morningRun].
Proof.
  exact (@set_stops_when_the_query_fails
           MemoryStore.t offlineStore (fun _ => "?"%string)
           morningRun (ofZ 5) undeletable undeletable offline
           eq_refl eq_refl).
Defined.

Lemma get_reads_the_last_sample_only_witness :
  outcome (EffortScore.getWorkoutEffortScoreInternal
             MemoryStore.healthStore morningRun
             (fst (afterNine MemoryStore.healthStore)))
    = Returns (Some (ofZ 9))
  <-> exists earlier lastSample,
      [QuantitySample (effortSample morningRun (ofZ 3));
       QuantitySample (effortSample morningRun (ofZ 9))]
      = earlier ++ [QuantitySample lastSample]
      /\ quantity lastSample = ofZ 9.
Proof.
  exact (proj1 (proj2 (proj2
           (@get_reads_the_last_sample_only
              MemoryStore.t MemoryStore.healthStore morningRun
              (fst (afterNine MemoryStore.healthStore))
              (fst (afterNine MemoryStore.healthStore))
              [QuantitySample (effortSample morningRun (ofZ 3));
               QuantitySample (effortSample morningRun (ofZ 9))]
              (ofZ 9) eq_refl)))).
Defined.

Lemma batches_after_done_are_dropped_witness :
  Routes.getRouteLocations keepsDelivering loop1 = Done (batchA ++ batchB).
Proof.
  exact (proj1 (@batches_after_done_are_dropped
                  keepsDelivering loop1 [batchA] [batchD] batchB eq_refl)).
Defined.

Lemma missing_batch_traps_witness :
  Routes.getRouteLocations forgetsBatch loop1
  = Trap (ForcedTryFailed (RuntimeError "Empty response")).
Proof.
  exact (@missing_batch_traps forgetsBatch loop1 [batchA] false eq_refl).
Defined.

Lemma routes_keep_order_and_metadata_witness :
  exists routes,
    Routes.getWorkoutRoutesInternal fourBatches morningRun = Done (Some routes)
    /\ 1%nat = length routes
    /\ Forall2 (carriesMetadata plainMetadata stringEntry doubleEntry) routes
         [ {| locations := withPrevious latitudeGain None
                             (batchA ++ batchB ++ batchD);
              HKMetadataKeySyncIdentifier := Some "sync-1"%string;
              HKMetadataKeySyncVersion := Some (Finite 2) |} ].
Proof.
  exact (@routes_keep_order_and_metadata
           fourBatches latitudeGain Metadata plainMetadata stringEntry
           doubleEntry morningRun _ eq_refl).
Defined.

Lemma failing_route_fails_the_whole_fetch_witness :
  serialized secondRouteStalls morningRun = Suspended.
Proof.
  exact (@failing_route_fails_the_whole_fetch
           secondRouteStalls latitudeGain Metadata plainMetadata stringEntry
           doubleEntry morningRun [loop1] [] loop2 _ eq_refl eq_refl).
Defined.

Lemma errors_thrown_by_route_fetch_witness :
  exists cb,
    executeAnchored answersStray morningRun = [cb]
    /\ (cb_error cb = Some (RuntimeError "Unexpected empty response")
        \/ (cb_error cb = None /\ cb_samples cb = None
            /\ RuntimeError "Unexpected empty response"
               = RuntimeError "Empty response")
        \/ (cb_error cb = None
            /\ (exists samples, cb_samples cb = Some samples
                                /\ Routes.asWorkoutRoutes samples = None)
            /\ RuntimeError "Unexpected empty response"
               = RuntimeError "Unexpected empty response")).
Proof.
  refine (@errors_thrown_by_route_fetch
            answersStray latitudeGain Metadata plainMetadata stringEntry
            doubleEntry morningRun (RuntimeError "Unexpected empty response")
            _ _ eq_refl).
  - intros m key err H. discriminate H.
  - intros m key err H. discriminate H.
Defined.

Lemma unknown_activity_crashes_the_plan_only_witness :
  Plans.workoutActivityType sampleActivityOfRawValue otherActivity
    (fun _ => 9999%Z) morningRun = inr otherActivity
  /\ Plans.getWorkoutPlanInternal sampleActivityOfRawValue
       (fun _ => Returns (Some exoticPlan)) morningRun = inl UnwrappedNil.
Proof.
  refine (@unknown_activity_crashes_the_plan_only
            SampleActivity sampleActivityOfRawValue otherActivity
            (fun _ => Returns (Some exoticPlan)) (fun _ => 9999%Z)
            morningRun exoticPlan eq_refl eq_refl _ eq_refl).
  simpl. lia.
Defined.

Lemma returned_plan_is_the_workouts_plan_witness :
  exists plan,
    Returns (Ex:=SwiftError) (Some runningPlan) = Returns (Some plan)
    /\ "plan-running"%string = plan_uuidString plan
    /\ sampleActivityOfRawValue (plan_activityRawValue plan) = Some running.
Proof.
  exact (@returned_plan_is_the_workouts_plan
           SampleActivity sampleActivityOfRawValue
           (fun _ => Returns (Some runningPlan)) morningRun
           (Some {| Plans.id := "plan-running"; Plans.activityType := running |})
           eq_refl).
Defined.

Lemma events_of_known_type_are_kept_witness :
  exists out,
    Accessors.events sampleEventTypeOfRawValue (fun _ => Some pauseAndResume)
                     morningRun = inr (Some out)
    /\ Forall2 (serializes sampleEventTypeOfRawValue)
               (filter (knownEvent sampleEventTypeOfRawValue) pauseAndResume)
               out.
Proof.
  refine (@events_of_known_type_are_kept
            SampleEventType sampleEventTypeOfRawValue
            (fun _ => Some pauseAndResume) morningRun pauseAndResume
            eq_refl _).
  repeat constructor; unfold fitsInt32; simpl; lia.
Defined.

Lemma event_type_overflow_crashes_witness :
  Accessors.events sampleEventTypeOfRawValue (fun _ => Some withHugeType)
                   morningRun = inl Int32Overflow.
Proof.
  refine (@event_type_overflow_crashes
            SampleEventType sampleEventTypeOfRawValue
            (fun _ => Some withHugeType) morningRun withHugeType eq_refl _).
  right. left. unfold fitsInt32. simpl. lia.
Defined.

Lemma example_reports_the_unsupported_platform_witness :
  Example.shown (Example.setWorkoutEffort (fun _ => "7"%string) (ofZ 7)
                   onOldPlatform tt)
  = [ConsoleError "Failed to set effort score:"
                  (JsError WorkoutEffort.unsupportedMessage);
     AlertShown "iOS Version" "Workout effort scores require iOS 18 or later"].
Proof.
  exact (f_equal (@Example.shown unit)
           (@example_reports_the_unsupported_platform
              unit (fun _ => "7"%string) onOldPlatform proxyWithoutEffort
              (ofZ 7) tt tt selectorMissing eq_refl eq_refl eq_refl eq_refl)).
Defined.

Lemma example_success_shows_a_description_witness :
  exists description,
    WorkoutEffort.getWorkoutEffortDescription (ofZ 7) = Some description
    /\ Example.setWorkoutEffort (fun _ => "7"%string) (ofZ 7) onMorningRun
         (undeletable, [])
       = {| Example.component :=
              {| Example.workout := Example.workout onMorningRun;
                 Example.effortScore := Some (ofZ 7);
                 Example.loading := false |};
            Example.native :=
              snd (proxy_setWorkoutEffortScore
                     (morningRunProxy MemoryStore.healthStore) (ofZ 7)
                     (undeletable, []));
            Example.shown :=
              [AlertShown "Success"
                          ("Workout effort set to " ++ "7" ++ " ("
                             ++ description ++ ")")%string];
            Example.nativeCalls := [CallSetWorkoutEffortScore (ofZ 7)] |}.
Proof.
  exact (@example_success_shows_a_description
           (MemoryStore.t * list StoreCall) (fun _ => "7"%string)
           onMorningRun (morningRunProxy MemoryStore.healthStore) (ofZ 7)
           (undeletable, []) _ true eq_refl eq_refl eq_refl).
Defined.

Lemma anchored_query_outcome_by_callbacks_witness :
  Routes.getWorkoutRoutesInternal
    {| executeAnchored := fun _ =>
         [ {| cb_samples := Some [WorkoutRouteSample loop1];
              cb_error := Some permissionLost |} ];
       executeRouteQuery := fun _ => [] |} morningRun
  = Error permissionLost.
Proof.
  exact (proj2 (proj2
           (@anchored_query_outcome_by_callbacks
              {| executeAnchored := fun _ =>
                   [ {| cb_samples := Some [WorkoutRouteSample loop1];
                        cb_error := Some permissionLost |} ];
                 executeRouteQuery := fun _ => [] |}
              morningRun (Some [WorkoutRouteSample loop1]) permissionLost))
           eq_refl).
Defined.
